(** * Farm Navigators: the weather preprocessor and the daily simulation

    A shallow embedding of the simulation logic of the browser game:
    - [MapPage]  (map screen): parsing of the upstream daily weather series,
      reference evapotranspiration and the soil-water balance;
    - [FarmGame] (simulation screen): the rainfall classifier [rainPattern]
      and the scene methods [init], [handleAction] and [nextDay];
    - [FarmSim]  (src/game/farm-sim.js): the three-level classifier
      [rainfallToLevel] and its [clamp] helper.

    Numbers.  A JavaScript number is modelled as an exact rational ([Q]);
    equality of numbers is [==] ([Qeq]).  Rounding of binary64 arithmetic
    and the infinities are outside the model.  NaN arises in one place,
    [Math.acos] in [computeRa] beyond the polar circles: [MapPage] is the
    balance loop where the radiation is a number, [Radiation] the loop
    over numbers that may be NaN ([JSNum]), with [computeRa] written out.

    Random draws.  [Phaser.Math.Between] and [Phaser.Math.FloatBetween] are
    replaced by explicit inputs (record [Draws]); a theorem that needs the
    range of a draw says so in a hypothesis.

    Rendering reads the simulation fields and writes none of them.  The
    HUD text and the feedback line are not modelled; the crop circle, the
    rain drops and the chart data are, apart from the simulation, in
    [View]; [Handoff] is the hand-over from the map screen to the game
    through local storage, [SimState] the rain levels of farm-sim.js and
    [DateLabel] the ordinal suffix of the date label. *)

From Stdlib Require Import QArith Qround Qabs Lqa ZArith Lia List.
From stdpp Require Import gmap strings list.
Import ListNotations.

Local Open Scope Q_scope.

(** ** JavaScript numbers and the Math helpers *)

Module JS.

(** [x < y] and [x === y] on numbers. *)
Definition ltb (x y : Q) : bool := negb (Qle_bool y x).
Definition eqb (x y : Q) : bool := Qeq_bool x y.

(** [Math.min(a, b)] and [Math.max(a, b)]. *)
Definition Math_min (a b : Q) : Q := if ltb b a then b else a.
Definition Math_max (a b : Q) : Q := if ltb a b then b else a.

(** [v || d] for a number [v]: zero is falsy. *)
Definition or_default (v d : Q) : Q := if eqb v 0 then d else v.

(** [o || d] where [o] may be [undefined]. *)
Definition opt_or_default (o : option Q) (d : Q) : Q :=
  match o with
  | Some v => or_default v d
  | None => d
  end.

(** [a[i]] for an integer index: [undefined] outside the array. *)
Definition index {A : Type} (a : list A) (i : Z) : option A :=
  if (i <? 0)%Z then None else a !! Z.to_nat i.

(** [+x.toFixed(k)]: the multiple of [10^-k] nearest to [x], a tie going
    away from zero (toFixed rounds the magnitude, the larger candidate
    winning a tie). *)
Definition toFixed (k : nat) (x : Q) : Q :=
  let scale := inject_Z (10 ^ Z.of_nat k) in
  let n := Qfloor (Qabs x * scale + (1 # 2)) in
  if ltb x 0 then - (inject_Z n / scale) else inject_Z n / scale.

End JS.

(** [Phaser.Math.Clamp(value, min, max)] is
    [Math.max(min, Math.min(max, value))]. *)
Module Phaser.

Definition Clamp (value lo hi : Q) : Q :=
  JS.Math_max lo (JS.Math_min hi value).

End Phaser.

(** ** Rainfall labels

    The strings ["none"], ["low"], ["medium"] and ["high"]. *)

Inductive RainLabel : Set := none | low | medium | high.

(** The intensity order none < low < medium < high. *)
Definition intensity (l : RainLabel) : nat :=
  match l with
  | none => 0
  | low => 1
  | medium => 2
  | high => 3
  end.

(** ** src/game/farm-sim.js *)

Module FarmSim.

Definition COST_IRRIGATE : Q := 3.
Definition COST_FERTILIZE : Q := 2.
Definition COST_SCOUT : Q := 1.

(** The three-level classifier: it has no ["none"] tier. *)
Definition rainfallToLevel (mm : Q) : RainLabel :=
  if JS.ltb mm 2 then low
  else if JS.ltb mm 10 then medium
  else high.

Definition clamp (min max v : Q) : Q :=
  JS.Math_max min (JS.Math_min max v).

End FarmSim.

(** ** The simulation screen (FarmGame.jsx) *)

Module FarmGame.

(** The record read back from local storage under ["weatherData"]:
    [data.precip] and the optional [data.soil_moisture]. *)
Record WeatherData : Type := {
  precip : list Q;
  soil_moisture : option (list Q)
}.

(** The arrow function mapped over [data.precip]. *)
Definition rainLevel (mm : Q) : RainLabel :=
  if JS.eqb mm 0 then none
  else if JS.ltb mm 3 then low
  else if JS.ltb mm 10 then medium
  else high.

Definition rainPattern (data : WeatherData) : list RainLabel :=
  map rainLevel (precip data).

Inductive Action : Set := Irrigate | Fertilize | Scout | Wait.

(** The values drawn by one call of [handleAction]:
    [Phaser.Math.Between(5, 15)] (drawn by Scout only),
    [Phaser.Math.Between(0, 5)] and
    [Phaser.Math.FloatBetween(-0.05, 0.05)]. *)
Record Draws : Type := {
  pestReduction : Z;
  pestGrowthDraw : Z;
  priceDrift : Q
}.

Definition valid_draws (rnd : Draws) : Prop :=
  (5 <= pestReduction rnd <= 15)%Z /\
  (0 <= pestGrowthDraw rnd <= 5)%Z /\
  - 0.05 <= priceDrift rnd <= 0.05.

(** *** The scene: the fields [init] sets on [this] *)

Module FarmScene.

Record t : Type := mk {
  rainPattern : list RainLabel;
  day : Z;
  money : Q;
  sustainability : Q;
  pests : Q;
  nitrogen : Q;
  cropHealth : Q;
  marketPrice : Q;
  soilMoisture : Q;
  precipSeries : list Q;
  actionsTakenToday : list Action
}.

(** Assignments [this.f = v]. *)
Definition set_day v s :=
  mk (rainPattern s) v (money s) (sustainability s) (pests s)
     (nitrogen s) (cropHealth s) (marketPrice s) (soilMoisture s)
     (precipSeries s) (actionsTakenToday s).
Definition set_money v s :=
  mk (rainPattern s) (day s) v (sustainability s) (pests s)
     (nitrogen s) (cropHealth s) (marketPrice s) (soilMoisture s)
     (precipSeries s) (actionsTakenToday s).
Definition set_sustainability v s :=
  mk (rainPattern s) (day s) (money s) v (pests s)
     (nitrogen s) (cropHealth s) (marketPrice s) (soilMoisture s)
     (precipSeries s) (actionsTakenToday s).
Definition set_pests v s :=
  mk (rainPattern s) (day s) (money s) (sustainability s) v
     (nitrogen s) (cropHealth s) (marketPrice s) (soilMoisture s)
     (precipSeries s) (actionsTakenToday s).
Definition set_nitrogen v s :=
  mk (rainPattern s) (day s) (money s) (sustainability s) (pests s)
     v (cropHealth s) (marketPrice s) (soilMoisture s)
     (precipSeries s) (actionsTakenToday s).
Definition set_cropHealth v s :=
  mk (rainPattern s) (day s) (money s) (sustainability s) (pests s)
     (nitrogen s) v (marketPrice s) (soilMoisture s)
     (precipSeries s) (actionsTakenToday s).
Definition set_marketPrice v s :=
  mk (rainPattern s) (day s) (money s) (sustainability s) (pests s)
     (nitrogen s) (cropHealth s) v (soilMoisture s)
     (precipSeries s) (actionsTakenToday s).
Definition set_soilMoisture v s :=
  mk (rainPattern s) (day s) (money s) (sustainability s) (pests s)
     (nitrogen s) (cropHealth s) (marketPrice s) v
     (precipSeries s) (actionsTakenToday s).
Definition set_actionsTakenToday v s :=
  mk (rainPattern s) (day s) (money s) (sustainability s) (pests s)
     (nitrogen s) (cropHealth s) (marketPrice s) (soilMoisture s)
     (precipSeries s) v.

(** [init()] *)
Definition init (data : WeatherData) : t := {|
  rainPattern := FarmGame.rainPattern data;
  day := 1;
  money := 20;
  sustainability := 80;
  pests := 15;
  nitrogen := 45;
  cropHealth := 70;
  marketPrice := 1.0;
  soilMoisture := JS.opt_or_default (soil_moisture data ≫= head) 55;
  precipSeries := [JS.opt_or_default (head (precip data)) 0];
  actionsTakenToday := []
|}.

(** [this.day > this.rainPattern.length]: the season is over. *)
Definition complete (s : t) : bool :=
  (Z.of_nat (length (rainPattern s)) <? day s)%Z.

(** The rain block at the head of [handleAction]. *)
Definition rainDelta (rain : RainLabel) (s : t) : t :=
  match rain with
  | none => set_soilMoisture (soilMoisture s - 7) s
  | low => set_soilMoisture (soilMoisture s - 5) s
  | medium => set_soilMoisture (soilMoisture s + 6) s
  | high => set_soilMoisture (soilMoisture s + 12) s
  end.

(** The [switch (action)] of [handleAction]. *)
Definition switchAction (action : Action) (rain : RainLabel)
    (rnd : Draws) (s : t) : t :=
  match action with
  | Irrigate =>
      let s := set_soilMoisture (soilMoisture s + 10) s in
      let s := set_money (money s - 3) s in
      match rain with
      | low | none => s
      | _ => set_sustainability (sustainability s - 2) s
      end
  | Fertilize =>
      let s := set_nitrogen (nitrogen s + 12) s in
      let s := set_money (money s - 2) s in
      match rain with
      | high => set_sustainability (sustainability s - 3) s
      | _ => s
      end
  | Scout =>
      let s :=
        set_pests
          (Phaser.Clamp (pests s - inject_Z (pestReduction rnd)) 0 100) s in
      set_money (money s - 1) s
  | Wait => s
  end.

(** The crop-health expression, before its clamp. *)
Definition healthScore (soil nitro pest : Q) : Q :=
  (soil * 0.4 + nitro * 0.4 + (100 - pest) * 0.2) / 1.5.

(** The revenue block: money credited from the new crop health. *)
Definition creditRevenue (s : t) : t :=
  if JS.ltb 70 (cropHealth s) then
    set_money (money s + 4 * marketPrice s) s
  else if JS.ltb 40 (cropHealth s) then
    set_money (money s + 2 * marketPrice s) s
  else s.

(** [handleAction(action)] *)
Definition handleAction (action : Action) (rnd : Draws) (s : t) : t :=
  if complete s then s
  else
    let rain := default medium (JS.index (rainPattern s) (day s - 1)) in
    let s := rainDelta rain s in
    let s := switchAction action rain rnd s in
    let s := set_actionsTakenToday (actionsTakenToday s ++ [action]) s in
    let pestGrowth :=
      inject_Z (pestGrowthDraw rnd) + (100 - cropHealth s) / 20 in
    let s := set_pests (Phaser.Clamp (pests s + pestGrowth) 0 100) s in
    let s := set_soilMoisture (Phaser.Clamp (soilMoisture s) 0 100) s in
    let s := set_nitrogen (Phaser.Clamp (nitrogen s) 0 100) s in
    let s :=
      set_cropHealth
        (Phaser.Clamp
           (healthScore (soilMoisture s) (nitrogen s) (pests s)) 0 100)
        s in
    let s := creditRevenue s in
    set_marketPrice
      (Phaser.Clamp (marketPrice s + priceDrift rnd) (0.8) (1.5)) s.

End FarmScene.

(** *** The page: the scene and the React state [nextDay] writes *)

(** One line of the action log, as far as it is fixed when [nextDay] is
    called: the actions taken that day (the empty list is printed as
    ["No action"]) and the day's rain, both copied into constants first.
    The day number of the line is not part of it: the text reads [this.day]
    when React runs the state updater, which may be at the call or after
    [this.day += 1]. *)
Record LogEntry : Type := {
  logActions : list Action;
  logRain : RainLabel
}.

(** The three figures of the end-of-season summary text, as printed:
    [money.toFixed(1)], [sustainability.toFixed(0)] and
    [cropHealth.toFixed(0)]. *)
Record Summary : Type := {
  finalProfit : Q;
  finalSustainability : Q;
  finalCropHealth : Q
}.

Record Page : Type := {
  scene : FarmScene.t;
  actionLog : list LogEntry;
  showEndModal : bool;
  endSummary : option Summary
}.

(** The state after mounting: [useState([])], [useState(false)],
    [useState("")] and the scene's [init]. *)
Definition mount (data : WeatherData) : Page := {|
  scene := FarmScene.init data;
  actionLog := [];
  showEndModal := false;
  endSummary := None
|}.

(** A click on an action button. *)
Definition handleAction (action : Action) (rnd : Draws) (p : Page) : Page :=
  {| scene := FarmScene.handleAction action rnd (scene p);
     actionLog := actionLog p;
     showEndModal := showEndModal p;
     endSummary := endSummary p |}.

(** [nextDay()] *)
Definition nextDay (p : Page) : Page :=
  let s := scene p in
  if FarmScene.complete s then p
  else
    let rainToday :=
      default none
        (JS.index (FarmScene.rainPattern s) (FarmScene.day s - 1)) in
    let log :=
      actionLog p ++
        [ {| logActions := FarmScene.actionsTakenToday s;
             logRain := rainToday |} ] in
    let s := FarmScene.set_actionsTakenToday [] s in
    let s := FarmScene.set_day (FarmScene.day s + 1) s in
    if FarmScene.complete s then
      {| scene := s;
         actionLog := log;
         showEndModal := true;
         endSummary :=
           Some {| finalProfit := JS.toFixed 1 (FarmScene.money s);
                   finalSustainability :=
                     JS.toFixed 0 (FarmScene.sustainability s);
                   finalCropHealth :=
                     JS.toFixed 0 (FarmScene.cropHealth s) |} |}
    else
      {| scene := s;
         actionLog := log;
         showEndModal := showEndModal p;
         endSummary := endSummary p |}.

(** The player's clicks, and a session of them. *)
Inductive Click : Type :=
| ClickAction (action : Action) (rnd : Draws)
| ClickNextDay.

Definition click (p : Page) (c : Click) : Page :=
  match c with
  | ClickAction action rnd => handleAction action rnd p
  | ClickNextDay => nextDay p
  end.

Definition play (p : Page) (cs : list Click) : Page :=
  fold_left click cs p.

Definition isNextDay (c : Click) : bool :=
  match c with
  | ClickNextDay => true
  | ClickAction _ _ => false
  end.

End FarmGame.

(** ** The map screen (MapPage.jsx): the click handler's weather block *)

Module MapPage.

(** [json.properties.parameter]: per parameter, an object from date key
    (["YYYYMMDD"]) to number; a parameter may be missing altogether.  A key
    that is missing, or whose value is [null], has no entry in the map. *)
Record ParameterObj : Type := {
  T2M_MAX : option (gmap string Q);
  T2M_MIN : option (gmap string Q);
  PRECTOT : option (gmap string Q)
}.

(** One index of the arrays [dates], [tmax], [tmin] and [precip], which
    the parsing loop fills in lockstep; [None] is [null]. *)
Record Row : Type := {
  key : string;
  tmx : option Q;
  tmn : option Q;
  prc : Q
}.

(** The parsing loop, over the date keys from [start] to [end]. *)
Definition parse (parameter : ParameterObj) (keys : list string) : list Row :=
  let tmaxObj := default ∅ (T2M_MAX parameter) in
  let tminObj := default ∅ (T2M_MIN parameter) in
  let precObj := default ∅ (PRECTOT parameter) in
  map (fun k =>
         {| key := k;
            tmx := tmaxObj !! k;
            tmn := tminObj !! k;
            prc := default 0 (precObj !! k) |})
      keys.

Definition fc_mm : Q := 150.

Definition kc_map : gmap string Q :=
  {[ "maize" := 1.15; "wheat" := 0.8; "grass" := 1.0; "default" := 1.0 ]}.

(** [kc_map[crop] || kc_map.default], for a crop string that is not the
    name of a property objects inherit ([crop] holds the value of one of
    the five options of the page's select, see [Radiation.Crop]). *)
Definition kc (crop : string) : Q :=
  JS.opt_or_default (kc_map !! crop) (default 0 (kc_map !! "default")).

(** The running balance and the two series pushed to. *)
Record Balance : Type := {
  aw : Q;
  soil_series : list Q;
  eto_series : list Q
}.

Section Evapotranspiration.

(** [Math.sqrt], and the two helpers built on trigonometry and on the
    calendar, [computeRa(latDeg, doy)] and the day of the year of a date
    key, are taken as given; [computeRa] is taken as a number here, which
    it is where [Math.acos] gets an argument in [-1, 1] (see [Radiation]
    for [computeRa] itself and for the loop when it is NaN). *)
Variable sqrt : Q -> Q.
Variable computeRa : Q -> Z -> Q.
Variable doyOfKey : string -> Z.

Definition hargreavesETo (tmin tmax Ra : Q) : Q :=
  let tmean := (tmin + tmax) / 2 in
  let deltaT := JS.Math_max 0 (tmax - tmin) in
  0.0023 * (tmean + 17.8) * sqrt deltaT * Ra.

(** The reference evapotranspiration of one day. *)
Definition etoOf (lat : Q) (r : Row) : Q :=
  match tmx r, tmn r with
  | Some tmax, Some tmin =>
      hargreavesETo tmin tmax (computeRa lat (doyOfKey (key r)))
  | _, _ => 0
  end.

(** One turn of the balance loop, from [eto] on. *)
Definition balanceDay (kc : Q) (b : Balance) (pr eto : Q) : Balance :=
  let etos := eto_series b ++ [JS.toFixed 3 eto] in
  let aw := aw b + pr in
  let etc := eto * kc in
  let actual_et := JS.Math_min aw etc in
  let aw := aw - actual_et in
  let aw := if JS.ltb fc_mm aw then fc_mm else aw in
  let aw := if JS.ltb aw 0 then 0 else aw in
  {| aw := aw;
     soil_series := soil_series b ++ [JS.toFixed 2 aw];
     eto_series := etos |}.

Definition balanceStep (lat kc : Q) (b : Balance) (r : Row) : Balance :=
  balanceDay kc b (JS.or_default (prc r) 0) (etoOf lat r).

(** The whole loop, from [aw = fc_mm * 0.5]. *)
Definition balance (lat : Q) (crop : string) (rows : list Row) : Balance :=
  fold_left (balanceStep lat (kc crop)) rows
    {| aw := fc_mm * 0.5; soil_series := []; eto_series := [] |}.

(** The record handed to the simulation screen ([data.precip] and
    [data.soil_moisture]). *)
Definition weatherData (lat : Q) (crop : string) (parameter : ParameterObj)
    (keys : list string) : FarmGame.WeatherData :=
  let rows := parse parameter keys in
  {| FarmGame.precip := map prc rows;
     FarmGame.soil_moisture := Some (soil_series (balance lat crop rows)) |}.

End Evapotranspiration.

End MapPage.

(** ** Vocabulary of the statements *)

Module Step.

Import FarmGame.

(** Today's rain as [handleAction] reads it. *)
Definition rainToday (s : FarmScene.t) : RainLabel :=
  default medium (JS.index (FarmScene.rainPattern s) (FarmScene.day s - 1)).

(** Soil moisture after the rain block, and after the action's case. *)
Definition soilAfterRain (rain : RainLabel) (soil : Q) : Q :=
  match rain with
  | none => soil - 7
  | low => soil - 5
  | medium => soil + 6
  | high => soil + 12
  end.

Definition soilAfterAction (action : Action) (soil : Q) : Q :=
  match action with
  | Irrigate => soil + 10
  | _ => soil
  end.

(** What the action's case charges. *)
Definition cost (action : Action) : Q :=
  match action with
  | Irrigate => 3
  | Fertilize => 2
  | Scout => 1
  | Wait => 0
  end.

(** What the action's case takes off sustainability. *)
Definition penalty (action : Action) (rain : RainLabel) : Q :=
  match action, rain with
  | Irrigate, (medium | high) => 2
  | Fertilize, high => 3
  | _, _ => 0
  end.

(** Pests after the action's case. *)
Definition pestsAfterAction (action : Action) (rnd : Draws) (pest : Q) : Q :=
  match action with
  | Scout => Phaser.Clamp (pest - inject_Z (pestReduction rnd)) 0 100
  | _ => pest
  end.

(** What the revenue block credits. *)
Definition revenue (health price : Q) : Q :=
  if JS.ltb 70 health then 4 * price
  else if JS.ltb 40 health then 2 * price
  else 0.

(** One whole step of the simulation, from [s] to [s'] with the action [a]
    and the draws [rnd]: every field of [s'] in terms of [s].  The rain
    pattern, the precipitation series and the day stay; the action is
    appended to the day's list; soil moisture takes the rain's delta and the
    action; nitrogen takes the fertilizer; pests take the scouting and the
    passive growth; crop health is recomputed from the three; sustainability
    pays the penalty; money pays the cost and earns the revenue of the new
    crop health at the old price; and the price drifts. *)
Definition stepped (a : Action) (rnd : Draws) (s s' : FarmScene.t) : Prop :=
  FarmScene.rainPattern s' = FarmScene.rainPattern s /\
  FarmScene.precipSeries s' = FarmScene.precipSeries s /\
  FarmScene.day s' = FarmScene.day s /\
  FarmScene.actionsTakenToday s' = FarmScene.actionsTakenToday s ++ [a] /\
  FarmScene.soilMoisture s'
  = Phaser.Clamp
      (soilAfterAction a
         (soilAfterRain (rainToday s) (FarmScene.soilMoisture s)))
      0 100 /\
  FarmScene.nitrogen s'
  = Phaser.Clamp
      (match a with
       | Fertilize => FarmScene.nitrogen s + 12
       | _ => FarmScene.nitrogen s
       end) 0 100 /\
  FarmScene.pests s'
  = Phaser.Clamp
      (pestsAfterAction a rnd (FarmScene.pests s)
       + (inject_Z (pestGrowthDraw rnd) + (100 - FarmScene.cropHealth s) / 20))
      0 100 /\
  FarmScene.cropHealth s'
  = Phaser.Clamp
      (FarmScene.healthScore (FarmScene.soilMoisture s')
         (FarmScene.nitrogen s') (FarmScene.pests s'))
      0 100 /\
  FarmScene.sustainability s'
  == FarmScene.sustainability s - penalty a (rainToday s) /\
  FarmScene.money s'
  == FarmScene.money s - cost a
     + revenue (FarmScene.cropHealth s') (FarmScene.marketPrice s) /\
  FarmScene.marketPrice s'
  = Phaser.Clamp (FarmScene.marketPrice s + priceDrift rnd) 0.8 1.5.

(** The fields of the simulation that [nextDay] could touch besides the
    day counter and the day's list of actions. *)
Definition ledger (s : FarmScene.t) : list Q :=
  [ FarmScene.soilMoisture s; FarmScene.nitrogen s; FarmScene.pests s;
    FarmScene.cropHealth s; FarmScene.money s; FarmScene.sustainability s;
    FarmScene.marketPrice s ].

Definition within (lo hi x : Q) : Prop := lo <= x <= hi.

(** The figures of the end-of-season summary of a scene. *)
Definition summaryOf (s : FarmScene.t) : Summary :=
  {| finalProfit := JS.toFixed 1 (FarmScene.money s);
     finalSustainability := JS.toFixed 0 (FarmScene.sustainability s);
     finalCropHealth := JS.toFixed 0 (FarmScene.cropHealth s) |}.

(** The number of clicks on Next Day in a session. *)
Definition nextDays (cs : list Click) : nat :=
  length (List.filter isNextDay cs).

(** The season is over and its summary is on show. *)
Definition finished (p : Page) : Prop :=
  FarmScene.complete (scene p) = true /\
  showEndModal p = true /\
  endSummary p = Some (summaryOf (scene p)).

(** What holds of the fields after every click of every session. *)
Definition bounded (s : FarmScene.t) : Prop :=
  within 0 100 (FarmScene.nitrogen s) /\
  within 0 100 (FarmScene.pests s) /\
  within 0 100 (FarmScene.cropHealth s) /\
  within 0.8 1.5 (FarmScene.marketPrice s) /\
  FarmScene.sustainability s <= 80.

End Step.

(** ** Sample inputs *)

Module Scenario.

Import FarmGame.

(** The irrigation scenario: the starting figures of farm-sim.js (soil
    moisture 55, nitrogen 40, pests 10, money 10, crop health 80,
    sustainability 100, market price 1.1) on the only day of a season of
    one day of medium rain. *)
Definition start : FarmScene.t := {|
  FarmScene.rainPattern := [medium];
  FarmScene.day := 1;
  FarmScene.money := 10;
  FarmScene.sustainability := 100;
  FarmScene.pests := 10;
  FarmScene.nitrogen := 40;
  FarmScene.cropHealth := 80;
  FarmScene.marketPrice := 1.1;
  FarmScene.soilMoisture := 55;
  FarmScene.precipSeries := [5];
  FarmScene.actionsTakenToday := []
|}.

(** Draws at the low end of their ranges, and no price drift. *)
Definition calm : Draws :=
  {| pestReduction := 5; pestGrowthDraw := 0; priceDrift := 0 |}.

(** Stored weather: one day of 5 mm and no soil-moisture series; and a
    day of 60 mm, which lifts the balance from 75 to 130 mm, then one of
    5 mm. *)
Definition oneWetDay : WeatherData :=
  {| precip := [5]; soil_moisture := None |}.

Definition soaked : WeatherData :=
  {| precip := [60; 5]; soil_moisture := Some [130; 131] |}.

(** Two upstream responses for 1 January 2025: one carrying the fill value
    -999 for each parameter, one with no entry for the day. *)
Definition filled : MapPage.ParameterObj :=
  {| MapPage.T2M_MAX := Some {[ "20250101" := (-999)%Q ]};
     MapPage.T2M_MIN := Some {[ "20250101" := (-999)%Q ]};
     MapPage.PRECTOT := Some {[ "20250101" := (-999)%Q ]} |}.

Definition blank : MapPage.ParameterObj :=
  {| MapPage.T2M_MAX := Some ∅;
     MapPage.T2M_MIN := None;
     MapPage.PRECTOT := Some ∅ |}.

(** The balance before the first day. *)
Definition halfFull : MapPage.Balance :=
  {| MapPage.aw := MapPage.fc_mm * 0.5;
     MapPage.soil_series := [];
     MapPage.eto_series := [] |}.

End Scenario.

(** * The rest of the two screens and of farm-sim.js *)

(** ** The date label of the map screen *)

Module DateLabel.

(** The ordinal suffix [formatDateLabel] puts after the day of the month;
    [%] is the remainder of the truncated division. *)
Definition suffix (day : Z) : string :=
  if ((Z.rem day 10 =? 1) && negb (day =? 11))%Z then "st"
  else if ((Z.rem day 10 =? 2) && negb (day =? 12))%Z then "nd"
  else if ((Z.rem day 10 =? 3) && negb (day =? 13))%Z then "rd"
  else "th".

End DateLabel.

(** ** What the scene draws: crop circle, rain drops and chart *)

Module View.

Import FarmGame.

(** [Phaser.Math.Linear(p0, p1, t)] is [(p1 - p0) * t + p0]. *)
Definition Linear (p0 p1 t : Q) : Q := (p1 - p0) * t + p0.

(** [updateCropVisual()]: the radius and the fill colour of the circle. *)
Definition updateCropVisual (s : FarmScene.t) : Q * Z :=
  let radius := Linear 20 60 (FarmScene.cropHealth s / 100) in
  let color :=
    if JS.ltb 70 (FarmScene.cropHealth s) then 0x2ecc71%Z
    else if JS.ltb 40 (FarmScene.cropHealth s) then 0xf1c40f%Z
    else 0xe74c3c%Z in
  (radius, color).

(** A rain drop: the position of its line. *)
Record Drop : Type := { x : Z; y : Z }.

(** The number of drops [createRain] makes for a rain level. *)
Definition dropCount (rainLevel : RainLabel) : nat :=
  match rainLevel with
  | none => 0
  | low => 10
  | medium => 30
  | high => 60
  end.

(** [createRain()]: the old drops are destroyed and [dropCount] new ones
    made; [pos i] is the pair of [Phaser.Math.Between(0, WIDTH)] and
    [Phaser.Math.Between(-50, 0)] drawn for the [i]-th of them. *)
Definition createRain (s : FarmScene.t) (pos : nat -> Z * Z) : list Drop :=
  let rainLevel :=
    default medium
      (JS.index (FarmScene.rainPattern s) (FarmScene.day s - 1)) in
  map (fun i => {| x := fst (pos i); y := snd (pos i) |})
      (seq 0 (dropCount rainLevel)).

(** [updateRain()], run on every frame: each drop falls by 4 and, once
    below the scene, is put back at a drawn position above it. *)
Definition fall (HEIGHT : Z) (redraw : Z * Z) (drop : Drop) : Drop :=
  let y' := (y drop + 4)%Z in
  if (HEIGHT <? y')%Z then {| x := fst redraw; y := snd redraw |}
  else {| x := x drop; y := y' |}.

Definition updateRain (HEIGHT : Z) (redraw : nat -> Z * Z)
    (rainDrops : list Drop) : list Drop :=
  imap (fun i drop => fall HEIGHT (redraw i) drop) rainDrops.

(** The data of the line chart: the labels and the two datasets. *)
Record Chart : Type := {
  labels : list Z;
  soilData : list Q;
  precipData : list Q
}.

(** [initChart()] *)
Definition initChart (data : WeatherData) (s : FarmScene.t) : Chart :=
  {| labels := [FarmScene.day s];
     soilData := [FarmScene.soilMoisture s];
     precipData := [JS.opt_or_default (head (precip data)) 0] |}.

(** [updateChart()], when the chart exists. *)
Definition updateChart (data : WeatherData) (s : FarmScene.t) (c : Chart)
    : Chart :=
  {| labels := labels c ++ [FarmScene.day s];
     soilData := soilData c ++ [FarmScene.soilMoisture s];
     precipData :=
       precipData c ++
         [JS.opt_or_default (JS.index (precip data) (FarmScene.day s - 1)) 0]
  |}.

(** The running scene: the page, the drops on show and the chart. *)
Record Stage : Type := {
  page : Page;
  rainDrops : list Drop;
  chart : Chart
}.

(** [create()], after [init()]: the chart is made and the first rain. *)
Definition create (data : WeatherData) (pos : nat -> Z * Z) : Stage :=
  {| page := mount data;
     rainDrops := createRain (FarmScene.init data) pos;
     chart := initChart data (FarmScene.init data) |}.

(** [handleAction(action)] with its last line, [this.createRain()], which
    the early return skips. *)
Definition handleAction (action : Action) (rnd : Draws) (pos : nat -> Z * Z)
    (st : Stage) : Stage :=
  if FarmScene.complete (scene (page st)) then st
  else
    let p := FarmGame.handleAction action rnd (page st) in
    {| page := p;
       rainDrops := createRain (scene p) pos;
       chart := chart st |}.

(** [nextDay()] with its [this.updateChart()], called before the day
    counter moves; the drops are left alone. *)
Definition nextDay (data : WeatherData) (st : Stage) : Stage :=
  if FarmScene.complete (scene (page st)) then st
  else
    {| page := FarmGame.nextDay (page st);
       rainDrops := rainDrops st;
       chart := updateChart data (scene (page st)) (chart st) |}.

(** A session on the stage. *)
Inductive Event : Type :=
| Act (action : Action) (rnd : Draws) (pos : nat -> Z * Z)
| Next.

Definition event (data : WeatherData) (st : Stage) (e : Event) : Stage :=
  match e with
  | Act action rnd pos => handleAction action rnd pos st
  | Next => nextDay data st
  end.

Definition run (data : WeatherData) (st : Stage) (es : list Event) : Stage :=
  fold_left (event data) es st.

(** The click behind an event of the stage. *)
Definition toClick (e : Event) : Click :=
  match e with
  | Act action rnd _ => ClickAction action rnd
  | Next => ClickNextDay
  end.

(** A drop within the width of the scene and between the top margin and
    the bottom. *)
Definition inScene (WIDTH HEIGHT : Z) (drop : Drop) : Prop :=
  (0 <= x drop <= WIDTH)%Z /\ (-50 <= y drop <= HEIGHT)%Z.

(** A drawn position: [(Between(0, WIDTH), Between(-50, 0))]. *)
Definition drawn (WIDTH : Z) (xy : Z * Z) : Prop :=
  (0 <= fst xy <= WIDTH)%Z /\ (-50 <= snd xy <= 0)%Z.

End View.

(** ** From the map screen to the simulation screen *)

Module Handoff.

Import FarmGame.

(** The React state of the map screen. *)
Record MapState : Type := {
  location : option (Q * Q);
  locationName : string;
  data : option WeatherData;
  loading : bool;
  error : string;
  days : Z;
  crop : string
}.

(** [useState] initial values. *)
Definition initial : MapState :=
  {| location := None; locationName := ""; data := None; loading := false;
     error := ""; days := 5; crop := "maize" |}.

(** How the two requests of a click on the map end: the reverse geocoding
    or the weather request (or the reading of its answer) throws, the place
    name being set or not by then; or both answer. *)
Inductive Outcome : Type :=
| Failed (place : option string)
| Loaded (place : string) (parameter : MapPage.ParameterObj)
         (keys : list string).

Section Click.

Variable sqrt : Q -> Q.
Variable computeRa : Q -> Z -> Q.
Variable doyOfKey : string -> Z.

(** The state when the click handler is done ([finally] included). *)
Definition clickMap (lat lng : Q) (o : Outcome) (st : MapState) : MapState :=
  match o with
  | Failed place =>
      {| location := Some (lat, lng);
         locationName := default (locationName st) place;
         data := None;
         loading := false;
         error := "❌ Failed to load NASA data";
         days := days st;
         crop := crop st |}
  | Loaded place parameter keys =>
      {| location := Some (lat, lng);
         locationName := place;
         data :=
           Some (MapPage.weatherData sqrt computeRa doyOfKey lat (crop st)
                   parameter keys);
         loading := false;
         error := "";
         days := days st;
         crop := crop st |}
  end.

End Click.

(** The Start Simulation button is disabled without a location and while
    loading. *)
Definition startDisabled (st : MapState) : bool :=
  negb (bool_decide (is_Some (location st))) || loading st.

(** The five items [handleStartGame] writes to local storage; the JSON
    text of a value is taken to read back as that value. *)
Record Storage : Type := {
  selectedCrop : string;
  selectedDays : Z;
  selectedLocation : option (Q * Q);
  selectedLocationName : string;
  weatherData : option WeatherData
}.

Definition handleStartGame (st : MapState) : Storage :=
  {| selectedCrop := crop st;
     selectedDays := days st;
     selectedLocation := location st;
     selectedLocationName := locationName st;
     weatherData := data st |}.

(** [s || d] for a string: the empty string is falsy. *)
Definition str_or_default (s d : string) : string :=
  if String.eqb s "" then d else s.

(** The effect of the simulation screen: without stored weather data it
    alerts and goes back to the map; otherwise the game starts. *)
Inductive Entered : Type :=
| Redirected
| Started (cropType locationName : string) (p : Page).

Definition enter (store : Storage) : Entered :=
  match weatherData store with
  | None => Redirected
  | Some data =>
      Started (str_or_default (selectedCrop store) "maize")
        (str_or_default (selectedLocationName store) "Unknown")
        (mount data)
  end.

End Handoff.

(** ** The game state of farm-sim.js *)

Module SimState.

(** [Array(days).fill("medium")] *)
Definition mock (days : nat) : list RainLabel := repeat medium days.

(** [currentRainLevel()]: [rainfallLevels[(week - 1) % rainfallLevels.length]];
    the remainder by 0 is NaN, which indexes nothing. *)
Definition currentRainLevel (week : Z) (rainfallLevels : list RainLabel)
    : option RainLabel :=
  match rainfallLevels with
  | [] => None
  | _ =>
      JS.index rainfallLevels
        (Z.rem (week - 1) (Z.of_nat (length rainfallLevels)))
  end.

(** [fetchNasaPower]: what [rainfallLevels] is once the values of PRECTOT
    have come; an empty answer changes nothing. *)
Definition fetched (days : nat) (vals : list Q)
    (rainfallLevels : list RainLabel) : list RainLabel :=
  match vals with
  | [] => rainfallLevels
  | _ => take days (map FarmSim.rainfallToLevel vals)
  end.

(** [healthColor()] and the radius set by [update()]. *)
Definition healthColor (cropHealth : Q) : Z :=
  if JS.ltb 70 cropHealth then 0x2ecc71%Z
  else if JS.ltb 40 cropHealth then 0xf1c40f%Z
  else 0xe74c3c%Z.

Definition radius (cropHealth : Q) : Q := View.Linear 18 60 (cropHealth / 100).

End SimState.

(** ** Vocabulary of the further statements *)

Module Session.

Import FarmGame.

(** The number of clicks on an action button in a session. *)
Definition actionClicks (cs : list Click) : nat :=
  length (List.filter (fun c => negb (isNextDay c)) cs).

(** The line [nextDay] adds to the action log. *)
Definition logLine (s : FarmScene.t) : LogEntry :=
  {| logActions := FarmScene.actionsTakenToday s;
     logRain :=
       default none
         (JS.index (FarmScene.rainPattern s) (FarmScene.day s - 1)) |}.

(** The shape of the page when [k] days of the season of [data] are over. *)
Definition shaped (data : WeatherData) (k : nat) (p : Page) : Prop :=
  FarmScene.rainPattern (scene p) = rainPattern data /\
  FarmScene.day (scene p) = Z.of_nat (S k) /\
  (k <= length (precip data))%nat /\
  map logRain (actionLog p) = take k (rainPattern data) /\
  (showEndModal p = true <->
   k = length (precip data) /\ (1 <= length (precip data))%nat) /\
  (endSummary p = None <-> showEndModal p = false).

End Session.

(** * The map page's balance with NaN *)

(** A number of the balance loop that may be NaN: [None] is NaN.  NaN comes
    out of [Math.acos] outside [-1, 1]; every arithmetic operation and
    [Math.min] pass it on, every comparison with it is false, and
    [+NaN.toFixed(k)] is NaN. *)
Module JSNum.

Definition num : Type := option Q.

Definition lift2 (f : Q -> Q -> Q) (x y : num) : num :=
  match x, y with
  | Some a, Some b => Some (f a b)
  | _, _ => None
  end.

Definition add : num -> num -> num := lift2 Qplus.
Definition sub : num -> num -> num := lift2 Qminus.
Definition mul : num -> num -> num := lift2 Qmult.
Definition Math_min : num -> num -> num := lift2 JS.Math_min.

(** [x < y] and [x > y]. *)
Definition ltb (x y : num) : bool :=
  match x, y with
  | Some a, Some b => JS.ltb a b
  | _, _ => false
  end.

Definition gtb (x y : num) : bool := ltb y x.

Definition toFixed (k : nat) (x : num) : num := option_map (JS.toFixed k) x.

(** A value emitted to a series is a number of the given range. *)
Definition within (lo hi : Q) (x : num) : Prop :=
  exists v, x = Some v /\ lo <= v <= hi.

End JSNum.

Module Radiation.

(** The crops of the page's select, and the string [crop] holds for each. *)
Inductive Crop : Type := maize | rice | wheat | soybean | cassava.

Definition value (c : Crop) : string :=
  match c with
  | maize => "maize"
  | rice => "rice"
  | wheat => "wheat"
  | soybean => "soybean"
  | cassava => "cassava"
  end.

(** [kc_map[crop] || kc_map.default] for a crop of the select. *)
Definition kc (c : Crop) : Q := MapPage.kc (value c).

(** The running balance and the two series pushed to. *)
Record Balance : Type := {
  aw : JSNum.num;
  soil_series : list JSNum.num;
  eto_series : list JSNum.num
}.

Section Trigonometry.

(** [Math.PI], [Math.sin], [Math.cos], [Math.tan], [Math.sqrt] and the
    day of the year of a date key are taken as given, and so are the values
    of [Math.acos] on [-1, 1]; outside [-1, 1] [Math.acos] is NaN. *)
Variable PI : Q.
Variables sin cos tan acos sqrt : Q -> Q.
Variable doyOfKey : string -> Z.

Definition Math_acos (x : Q) : JSNum.num :=
  if JS.ltb 1 x || JS.ltb x (-1) then None else Some (acos x).

Definition deg2rad (d : Q) : Q := d * PI / 180.

(** The argument of [Math.acos] in [computeRa]:
    [-Math.tan(lat) * Math.tan(delta)]. *)
Definition sunset (latDeg : Q) (doy : Z) : Q :=
  let lat := deg2rad latDeg in
  let delta := 0.409 * sin ((2 * PI * inject_Z doy) / 365 - 1.39) in
  - tan lat * tan delta.

Definition computeRa (latDeg : Q) (doy : Z) : JSNum.num :=
  let Gsc := 0.0820 in
  let lat := deg2rad latDeg in
  let dr := 1 + 0.033 * cos ((2 * PI * inject_Z doy) / 365) in
  let delta := 0.409 * sin ((2 * PI * inject_Z doy) / 365 - 1.39) in
  let omega_s := Math_acos (- tan lat * tan delta) in
  JSNum.mul (Some ((24 * 60 / PI) * Gsc * dr))
    (JSNum.add
       (JSNum.mul (JSNum.mul omega_s (Some (sin lat))) (Some (sin delta)))
       (JSNum.mul (Some (cos lat * cos delta)) (option_map sin omega_s))).

Definition hargreavesETo (tmin tmax : Q) (Ra : JSNum.num) : JSNum.num :=
  let tmean := (tmin + tmax) / 2 in
  let deltaT := JS.Math_max 0 (tmax - tmin) in
  JSNum.mul (Some (0.0023 * (tmean + 17.8) * sqrt deltaT)) Ra.

(** The reference evapotranspiration of one day. *)
Definition etoOf (lat : Q) (r : MapPage.Row) : JSNum.num :=
  match MapPage.tmx r, MapPage.tmn r with
  | Some tmax, Some tmin =>
      hargreavesETo tmin tmax (computeRa lat (doyOfKey (MapPage.key r)))
  | _, _ => Some 0
  end.

(** One turn of the balance loop, from [eto] on. *)
Definition balanceDay (kc : Q) (b : Balance) (pr : Q) (eto : JSNum.num) :
    Balance :=
  let etos := eto_series b ++ [JSNum.toFixed 3 eto] in
  let aw := JSNum.add (aw b) (Some pr) in
  let etc := JSNum.mul eto (Some kc) in
  let actual_et := JSNum.Math_min aw etc in
  let aw := JSNum.sub aw actual_et in
  let aw := if JSNum.gtb aw (Some MapPage.fc_mm) then Some MapPage.fc_mm
            else aw in
  let aw := if JSNum.ltb aw (Some 0) then Some 0 else aw in
  {| aw := aw;
     soil_series := soil_series b ++ [JSNum.toFixed 2 aw];
     eto_series := etos |}.

Definition balanceStep (lat kc : Q) (b : Balance) (r : MapPage.Row) :
    Balance :=
  balanceDay kc b (JS.or_default (MapPage.prc r) 0) (etoOf lat r).

(** The whole loop, from [aw = fc_mm * 0.5]. *)
Definition balance (lat : Q) (crop : Crop) (rows : list MapPage.Row) :
    Balance :=
  fold_left (balanceStep lat (kc crop)) rows
    {| aw := Some (MapPage.fc_mm * 0.5);
       soil_series := [];
       eto_series := [] |}.

(** [computeRa] where it is a number, for the comparison with the loop over
    numbers alone. *)
Definition numericRa (latDeg : Q) (doy : Z) : Q :=
  default 0 (computeRa latDeg doy).

End Trigonometry.

(** The balance over numbers alone, read as one that may hold NaN. *)
Definition ofNumbers (b : MapPage.Balance) : Balance :=
  {| aw := Some (MapPage.aw b);
     soil_series := map Some (MapPage.soil_series b);
     eto_series := map Some (MapPage.eto_series b) |}.

End Radiation.

(** Sample inputs of the balance with NaN: Bhaskara's rational approximation
    of the sine, good from [-PI] to [2 * PI], the cosine and the tangent
    built on it, a date key whose day of the year is 355, 21 December, and
    a row of that day with both temperatures.  The stand-ins for
    [Math.acos] and [Math.sqrt] are of no consequence to them. *)
Module Polar.

Definition PI : Q := 355 # 113.

Definition bhaskara (y : Q) : Q :=
  16 * y * (PI - y) / (5 * PI * PI - 4 * y * (PI - y)).

Definition sin (x : Q) : Q :=
  if JS.ltb x 0 then - bhaskara (- x)
  else if JS.ltb PI x then - bhaskara (x - PI)
  else bhaskara x.

Definition cos (x : Q) : Q := sin (x + PI / 2).

Definition tan (x : Q) : Q := sin x / cos x.

Definition acos (x : Q) : Q := PI / 2 - x.

Definition sqrt (x : Q) : Q := (x + 1) / 2.

Definition doyOfKey (key : string) : Z := 355.

Definition midwinter : MapPage.Row :=
  {| MapPage.key := "20251221";
     MapPage.tmx := Some (-5);
     MapPage.tmn := Some (-12);
     MapPage.prc := 0 |}.

End Polar.

(** * Facts *)

(** ** Comparisons, minimum, maximum and clamp *)

Lemma ltb_lt x y : JS.ltb x y = true <-> x < y.
Proof.
  unfold JS.ltb. rewrite negb_true_iff, <- not_true_iff_false, Qle_bool_iff.
  split; [apply Qnot_le_lt | apply Qlt_not_le].
Qed.

Lemma ltb_ge x y : JS.ltb x y = false <-> y <= x.
Proof. unfold JS.ltb. rewrite negb_false_iff. apply Qle_bool_iff. Qed.

Lemma eqb_eq x y : JS.eqb x y = true <-> x == y.
Proof. apply Qeq_bool_iff. Qed.

Lemma eqb_neq x y : JS.eqb x y = false <-> ~ x == y.
Proof. rewrite <- not_true_iff_false, eqb_eq. tauto. Qed.

(** Case analysis on a comparison of the goal, keeping the order fact. *)
Ltac case_ltb x y :=
  let H := fresh "Hcmp" in
  destruct (JS.ltb x y) eqn:H;
  [ apply ltb_lt in H | apply ltb_ge in H ].

Ltac case_eqb x y :=
  let H := fresh "Heq" in
  destruct (JS.eqb x y) eqn:H;
  [ apply eqb_eq in H | apply eqb_neq in H ].

(** Innermost comparisons first, so that each order fact is about values. *)
Ltac no_cmp t :=
  lazymatch t with
  | context [JS.ltb _ _] => fail
  | context [JS.eqb _ _] => fail
  | _ => idtac
  end.

Ltac case_cmp :=
  repeat match goal with
         | |- context [JS.ltb ?x ?y] => no_cmp x; no_cmp y; case_ltb x y
         | |- context [JS.eqb ?x ?y] => no_cmp x; no_cmp y; case_eqb x y
         end.

Lemma Math_min_spec a b :
  (b < a /\ JS.Math_min a b = b) \/ (a <= b /\ JS.Math_min a b = a).
Proof. unfold JS.Math_min. case_ltb b a; auto. Qed.

Lemma Math_max_spec a b :
  (a < b /\ JS.Math_max a b = b) \/ (b <= a /\ JS.Math_max a b = a).
Proof. unfold JS.Math_max. case_ltb a b; auto. Qed.

Lemma Clamp_range v lo hi : lo <= hi -> lo <= Phaser.Clamp v lo hi <= hi.
Proof.
  intros Hlh. unfold Phaser.Clamp, JS.Math_max, JS.Math_min.
  case_cmp; split; lra.
Qed.

Lemma Clamp_inside v lo hi : lo <= v <= hi -> Phaser.Clamp v lo hi == v.
Proof.
  intros [H1 H2]. unfold Phaser.Clamp, JS.Math_max, JS.Math_min.
  case_cmp; lra.
Qed.

Lemma Clamp_compat v v' lo hi :
  v == v' -> Phaser.Clamp v lo hi == Phaser.Clamp v' lo hi.
Proof.
  intros E. unfold Phaser.Clamp, JS.Math_max, JS.Math_min.
  case_cmp; lra.
Qed.

Lemma Clamp_percent v : 0 <= Phaser.Clamp v 0 100 <= 100.
Proof. apply Clamp_range. lra. Qed.

Lemma Clamp_price v : 0.8 <= Phaser.Clamp v 0.8 1.5 <= 1.5.
Proof. apply Clamp_range. lra. Qed.

(** The helper of farm-sim.js is the same function, its bounds first. *)
Lemma clamp_is_Clamp lo hi v : FarmSim.clamp lo hi v = Phaser.Clamp v lo hi.
Proof. reflexivity. Qed.

(** ** The rainfall classifiers *)

Lemma rainLevel_cases p :
  (p == 0 /\ FarmGame.rainLevel p = none) \/
  (~ p == 0 /\ p < 3 /\ FarmGame.rainLevel p = low) \/
  (3 <= p /\ p < 10 /\ FarmGame.rainLevel p = medium) \/
  (10 <= p /\ FarmGame.rainLevel p = high).
Proof.
  unfold FarmGame.rainLevel. case_cmp; intuition (auto; lra).
Qed.

Lemma rainfallToLevel_cases p :
  (p < 2 /\ FarmSim.rainfallToLevel p = low) \/
  (2 <= p /\ p < 10 /\ FarmSim.rainfallToLevel p = medium) \/
  (10 <= p /\ FarmSim.rainfallToLevel p = high).
Proof.
  unfold FarmSim.rainfallToLevel. case_cmp; intuition (auto; lra).
Qed.

(** The three-level classifier is monotone over all numbers. *)
Lemma rainfallToLevel_monotone p q :
  p <= q ->
  (intensity (FarmSim.rainfallToLevel p)
   <= intensity (FarmSim.rainfallToLevel q))%nat.
Proof.
  intros Hpq.
  destruct (rainfallToLevel_cases p)
    as [(? & ->) | [(? & ? & ->) | (? & ->)]];
    destruct (rainfallToLevel_cases q)
      as [(? & ->) | [(? & ? & ->) | (? & ->)]];
    simpl; try lia; exfalso; lra.
Qed.

(** The four-level classifier is not monotone over all numbers: the fill
    value -999, which is below 0, is labelled low, and 0 is labelled none. *)
Lemma rainLevel_not_monotone_below_zero :
  -999 <= 0 /\
  FarmGame.rainLevel (-999) = low /\
  FarmGame.rainLevel 0 = none /\
  ~ (intensity (FarmGame.rainLevel (-999))
     <= intensity (FarmGame.rainLevel 0))%nat.
Proof.
  split; [ discriminate | ].
  split; [ reflexivity | ]. split; [ reflexivity | ].
  change (~ (1 <= 0)%nat). lia.
Qed.

(** C5: for every precipitation value p the classifier of the simulation
    screen returns none exactly when p = 0, low when 0 < p < 3, medium when
    3 <= p < 10 and high when p >= 10; the classifier of farm-sim.js has
    three levels and no none tier: low when p < 2, medium when 2 <= p < 10,
    high when p >= 10. *)
Theorem rain_thresholds (p : Q) :
  (FarmGame.rainLevel p = none <-> p == 0) /\
  (0 < p /\ p < 3 -> FarmGame.rainLevel p = low) /\
  (3 <= p /\ p < 10 -> FarmGame.rainLevel p = medium) /\
  (10 <= p -> FarmGame.rainLevel p = high) /\
  (p < 2 -> FarmSim.rainfallToLevel p = low) /\
  (2 <= p /\ p < 10 -> FarmSim.rainfallToLevel p = medium) /\
  (10 <= p -> FarmSim.rainfallToLevel p = high) /\
  FarmSim.rainfallToLevel p <> none.
Proof.
  destruct (rainLevel_cases p)
    as [(? & E) | [(? & ? & E) | [(? & ? & E) | (? & E)]]];
    destruct (rainfallToLevel_cases p)
      as [(? & E') | [(? & ? & E') | (? & E')]];
    rewrite E, E';
    repeat split; intros; try reflexivity; try discriminate;
      try (exfalso; lra); try assumption.
Qed.

Lemma rain_thresholds_witness :
  FarmGame.rainLevel 1 = low /\ FarmGame.rainLevel 5 = medium /\
  FarmGame.rainLevel 12 = high /\ FarmSim.rainfallToLevel 1 = low /\
  FarmSim.rainfallToLevel 5 = medium /\ FarmSim.rainfallToLevel 12 = high.
Proof.
  destruct (rain_thresholds 1) as (_ & L1 & _ & _ & T1 & _).
  destruct (rain_thresholds 5) as (_ & _ & L5 & _ & _ & T5 & _).
  destruct (rain_thresholds 12) as (_ & _ & _ & L12 & _ & _ & T12 & _).
  split; [ apply L1; split; reflexivity | ].
  split; [ apply L5; split; [discriminate | reflexivity] | ].
  split; [ apply L12; discriminate | ].
  split; [ apply T1; reflexivity | ].
  split; [ apply T5; split; [discriminate | reflexivity] | ].
  apply T12; discriminate.
Defined.

(** C6, as the code has it: for amounts p <= q the label of p is at most
    the label of q in the order none < low < medium < high: for the
    three-level classifier on every pair, and for the four-level classifier
    on every pair except a negative p with q = 0, where the label of p is
    low and that of q is none; and a label depends on the amount alone:
    equal amounts get equal labels. *)
Theorem rain_monotone (p q : Q) (Hpq : p <= q) :
  (~ (p < 0 /\ q == 0) ->
   (intensity (FarmGame.rainLevel p)
    <= intensity (FarmGame.rainLevel q))%nat) /\
  (intensity (FarmSim.rainfallToLevel p)
   <= intensity (FarmSim.rainfallToLevel q))%nat /\
  (p == q ->
   FarmGame.rainLevel p = FarmGame.rainLevel q /\
   FarmSim.rainfallToLevel p = FarmSim.rainfallToLevel q) /\
  (p < 0 /\ q == 0 ->
   FarmGame.rainLevel p = low /\ FarmGame.rainLevel q = none).
Proof.
  split; [ | split; [ now apply rainfallToLevel_monotone | split ] ].
  - intros Hp.
    destruct (rainLevel_cases p)
      as [(? & ->) | [(? & ? & ->) | [(? & ? & ->) | (? & ->)]]];
      destruct (rainLevel_cases q)
        as [(? & ->) | [(? & ? & ->) | [(? & ? & ->) | (? & ->)]]];
      simpl; try lia; exfalso;
        try lra; (apply Hp; split; [ lra | assumption ]).
  - intros E.
    destruct (rainLevel_cases p)
      as [(? & ->) | [(? & ? & ->) | [(? & ? & ->) | (? & ->)]]];
      destruct (rainLevel_cases q)
        as [(? & ->) | [(? & ? & ->) | [(? & ? & ->) | (? & ->)]]];
      destruct (rainfallToLevel_cases p)
        as [(? & ->) | [(? & ? & ->) | (? & ->)]];
      destruct (rainfallToLevel_cases q)
        as [(? & ->) | [(? & ? & ->) | (? & ->)]];
      try (split; reflexivity); exfalso; lra.
  - intros [Hp Hq].
    destruct (rainLevel_cases p)
      as [(? & ->) | [(? & ? & ->) | [(? & ? & ->) | (? & ->)]]];
      destruct (rainLevel_cases q)
        as [(? & ->) | [(? & ? & ->) | [(? & ? & ->) | (? & ->)]]];
      try (split; reflexivity); exfalso; lra.
Qed.

Lemma rain_monotone_witness :
  (intensity (FarmGame.rainLevel (-999))
   <= intensity (FarmGame.rainLevel 4))%nat /\
  (intensity (FarmSim.rainfallToLevel (-999))
   <= intensity (FarmSim.rainfallToLevel 4))%nat.
Proof.
  assert (H0 : ~ (-999 < 0 /\ 4 == 0)) by (intros [_ H]; discriminate H).
  assert (H1 : -999 <= 4) by discriminate.
  destruct (rain_monotone (-999) 4 H1) as (A & B & _).
  exact (conj (A H0) B).
Defined.

(** ** One call of [handleAction] *)

Import FarmGame.

(** Unfold one call in a state that is in progress, field by field, by
    cases on the action, on the day's rain and on the two revenue tests. *)
Ltac scene_red :=
  cbv beta iota zeta delta
    [ FarmScene.rainDelta FarmScene.switchAction FarmScene.creditRevenue
      FarmScene.set_day FarmScene.set_money FarmScene.set_sustainability
      FarmScene.set_pests FarmScene.set_nitrogen FarmScene.set_cropHealth
      FarmScene.set_marketPrice FarmScene.set_soilMoisture
      FarmScene.set_actionsTakenToday
      FarmScene.rainPattern FarmScene.day FarmScene.money
      FarmScene.sustainability FarmScene.pests FarmScene.nitrogen
      FarmScene.cropHealth FarmScene.marketPrice FarmScene.soilMoisture
      FarmScene.precipSeries FarmScene.actionsTakenToday
      Step.rainToday Step.soilAfterRain Step.soilAfterAction
      Step.pestsAfterAction Step.cost Step.penalty Step.revenue ].

Ltac step_cases a s H :=
  destruct s;
  unfold FarmScene.handleAction; rewrite H; clear H;
  scene_red;
  match goal with
  | |- context [default medium ?o] => generalize (default medium o)
  end;
  let rain := fresh "rain" in
  intros rain; destruct a, rain;
  scene_red; case_cmp; scene_red.

Lemma handleAction_complete a rnd s :
  FarmScene.complete s = true -> FarmScene.handleAction a rnd s = s.
Proof. intros H. unfold FarmScene.handleAction. now rewrite H. Qed.

Lemma handleAction_day a rnd s :
  FarmScene.day (FarmScene.handleAction a rnd s) = FarmScene.day s.
Proof.
  destruct (FarmScene.complete s) eqn:H.
  - now rewrite handleAction_complete.
  - step_cases a s H; reflexivity.
Qed.

Lemma handleAction_rainPattern a rnd s :
  FarmScene.rainPattern (FarmScene.handleAction a rnd s)
  = FarmScene.rainPattern s.
Proof.
  destruct (FarmScene.complete s) eqn:H.
  - now rewrite handleAction_complete.
  - step_cases a s H; reflexivity.
Qed.

Lemma handleAction_still a rnd s :
  FarmScene.complete (FarmScene.handleAction a rnd s) = FarmScene.complete s.
Proof.
  unfold FarmScene.complete.
  now rewrite handleAction_day, handleAction_rainPattern.
Qed.

Lemma handleAction_rainToday a rnd s :
  Step.rainToday (FarmScene.handleAction a rnd s) = Step.rainToday s.
Proof.
  unfold Step.rainToday.
  now rewrite handleAction_day, handleAction_rainPattern.
Qed.

Lemma handleAction_actions a rnd s :
  FarmScene.complete s = false ->
  FarmScene.actionsTakenToday (FarmScene.handleAction a rnd s)
  = FarmScene.actionsTakenToday s ++ [a].
Proof. intros H. step_cases a s H; reflexivity. Qed.

Lemma handleAction_soil a rnd s :
  FarmScene.complete s = false ->
  FarmScene.soilMoisture (FarmScene.handleAction a rnd s)
  = Phaser.Clamp
      (Step.soilAfterAction a
         (Step.soilAfterRain (Step.rainToday s) (FarmScene.soilMoisture s)))
      0 100.
Proof. intros H. step_cases a s H; reflexivity. Qed.

Lemma handleAction_nitrogen a rnd s :
  FarmScene.complete s = false ->
  FarmScene.nitrogen (FarmScene.handleAction a rnd s)
  = Phaser.Clamp
      (match a with
       | Fertilize => FarmScene.nitrogen s + 12
       | _ => FarmScene.nitrogen s
       end) 0 100.
Proof. intros H. step_cases a s H; reflexivity. Qed.

Lemma handleAction_pests a rnd s :
  FarmScene.complete s = false ->
  FarmScene.pests (FarmScene.handleAction a rnd s)
  = Phaser.Clamp
      (Step.pestsAfterAction a rnd (FarmScene.pests s)
       + (inject_Z (pestGrowthDraw rnd) + (100 - FarmScene.cropHealth s) / 20))
      0 100.
Proof. intros H. step_cases a s H; reflexivity. Qed.

Lemma handleAction_cropHealth a rnd s :
  FarmScene.complete s = false ->
  let s' := FarmScene.handleAction a rnd s in
  FarmScene.cropHealth s'
  = Phaser.Clamp
      (FarmScene.healthScore (FarmScene.soilMoisture s')
         (FarmScene.nitrogen s') (FarmScene.pests s'))
      0 100.
Proof. intros H. step_cases a s H; reflexivity. Qed.

Lemma handleAction_marketPrice a rnd s :
  FarmScene.complete s = false ->
  FarmScene.marketPrice (FarmScene.handleAction a rnd s)
  = Phaser.Clamp (FarmScene.marketPrice s + priceDrift rnd) 0.8 1.5.
Proof. intros H. step_cases a s H; reflexivity. Qed.

Lemma handleAction_sustainability a rnd s :
  FarmScene.complete s = false ->
  FarmScene.sustainability (FarmScene.handleAction a rnd s)
  == FarmScene.sustainability s - Step.penalty a (Step.rainToday s).
Proof.
  intros H. step_cases a s H; lra.
Qed.

Lemma handleAction_money a rnd s :
  FarmScene.complete s = false ->
  let s' := FarmScene.handleAction a rnd s in
  FarmScene.money s'
  == FarmScene.money s - Step.cost a
     + Step.revenue (FarmScene.cropHealth s') (FarmScene.marketPrice s).
Proof.
  intros H. step_cases a s H; lra.
Qed.

Lemma handleAction_precipSeries a rnd s :
  FarmScene.precipSeries (FarmScene.handleAction a rnd s)
  = FarmScene.precipSeries s.
Proof.
  destruct (FarmScene.complete s) eqn:H.
  - now rewrite handleAction_complete.
  - step_cases a s H; reflexivity.
Qed.

(** Every call in a state in progress is one whole step. *)
Lemma handleAction_stepped a rnd s :
  FarmScene.complete s = false ->
  Step.stepped a rnd s (FarmScene.handleAction a rnd s).
Proof.
  intros H. unfold Step.stepped.
  split; [ apply handleAction_rainPattern | ].
  split; [ apply handleAction_precipSeries | ].
  split; [ apply handleAction_day | ].
  split; [ apply (handleAction_actions a rnd s H) | ].
  split; [ apply (handleAction_soil a rnd s H) | ].
  split; [ apply (handleAction_nitrogen a rnd s H) | ].
  split; [ apply (handleAction_pests a rnd s H) | ].
  split; [ apply (handleAction_cropHealth a rnd s H) | ].
  split; [ apply (handleAction_sustainability a rnd s H) | ].
  split; [ apply (handleAction_money a rnd s H) | ].
  apply (handleAction_marketPrice a rnd s H).
Qed.

(** ** One call of [nextDay] *)

Lemma nextDay_complete p :
  FarmScene.complete (scene p) = true -> nextDay p = p.
Proof. intros H. unfold nextDay. now rewrite H. Qed.

(** The scene after [nextDay]: the day's list emptied and the day counter
    moved on, whether or not the season ends with it. *)
Lemma nextDay_scene p :
  FarmScene.complete (scene p) = false ->
  scene (nextDay p)
  = FarmScene.set_day (FarmScene.day (scene p) + 1)
      (FarmScene.set_actionsTakenToday [] (scene p)).
Proof.
  intros H. unfold nextDay. rewrite H. cbv zeta.
  match goal with |- context [if ?c then _ else _] => destruct c end;
    reflexivity.
Qed.

Lemma nextDay_ledger p :
  Step.ledger (scene (nextDay p)) = Step.ledger (scene p).
Proof.
  destruct (FarmScene.complete (scene p)) eqn:H.
  - now rewrite nextDay_complete.
  - rewrite nextDay_scene by assumption. reflexivity.
Qed.

Lemma nextDay_rainPattern p :
  FarmScene.rainPattern (scene (nextDay p)) = FarmScene.rainPattern (scene p).
Proof.
  destruct (FarmScene.complete (scene p)) eqn:H.
  - now rewrite nextDay_complete.
  - rewrite nextDay_scene by assumption. reflexivity.
Qed.

Lemma nextDay_cropHealth p :
  FarmScene.cropHealth (scene (nextDay p)) = FarmScene.cropHealth (scene p).
Proof.
  pose proof (nextDay_ledger p) as E. unfold Step.ledger in E. congruence.
Qed.

(** The page after [nextDay] on a day that is not the last. *)
Lemma nextDay_midseason p :
  (FarmScene.day (scene p)
   < Z.of_nat (length (FarmScene.rainPattern (scene p))))%Z ->
  nextDay p
  = {| scene :=
         FarmScene.set_day (FarmScene.day (scene p) + 1)
           (FarmScene.set_actionsTakenToday [] (scene p));
       actionLog :=
         actionLog p ++
           [ {| logActions := FarmScene.actionsTakenToday (scene p);
                logRain :=
                  default none
                    (JS.index (FarmScene.rainPattern (scene p))
                       (FarmScene.day (scene p) - 1)) |} ];
       showEndModal := showEndModal p;
       endSummary := endSummary p |}.
Proof.
  intros H.
  assert (Hs : FarmScene.complete (scene p) = false).
  { unfold FarmScene.complete. apply Z.ltb_ge. lia. }
  assert (Hs' : FarmScene.complete
                  (FarmScene.set_day (FarmScene.day (scene p) + 1)
                     (FarmScene.set_actionsTakenToday [] (scene p))) = false).
  { unfold FarmScene.complete. cbn. apply Z.ltb_ge. lia. }
  unfold nextDay. rewrite Hs. cbv zeta.
  match goal with
  | |- context [if ?c then _ else _] =>
      replace c with false by (symmetry; exact Hs')
  end.
  reflexivity.
Qed.

(** The page after [nextDay] on the last day. *)
Lemma nextDay_last p :
  FarmScene.day (scene p)
  = Z.of_nat (length (FarmScene.rainPattern (scene p))) ->
  Step.finished (nextDay p) /\
  Step.ledger (scene (nextDay p)) = Step.ledger (scene p).
Proof.
  intros H.
  assert (Hs : FarmScene.complete (scene p) = false).
  { unfold FarmScene.complete. apply Z.ltb_ge. lia. }
  assert (Hs' : FarmScene.complete
                  (FarmScene.set_day (FarmScene.day (scene p) + 1)
                     (FarmScene.set_actionsTakenToday [] (scene p))) = true).
  { unfold FarmScene.complete. cbn. apply Z.ltb_lt. lia. }
  split; [ | apply nextDay_ledger ].
  unfold nextDay. rewrite Hs. cbv zeta.
  match goal with
  | |- context [if ?c then _ else _] =>
      replace c with true by (symmetry; exact Hs')
  end.
  unfold Step.finished. cbn [scene showEndModal endSummary].
  split; [ exact Hs' | split; reflexivity ].
Qed.

(** ** Crop health is derived *)

(** The scene starts with crop health 70, whatever the formula would give
    for the starting fields (38 for the default soil moisture 55), and keeps
    it when a day is advanced before any action. *)
Lemma cropHealth_starts_at_70 :
  let s := FarmScene.init Scenario.oneWetDay in
  FarmScene.cropHealth s = 70 /\
  Phaser.Clamp
    (FarmScene.healthScore (FarmScene.soilMoisture s) (FarmScene.nitrogen s)
       (FarmScene.pests s)) 0 100 == 38 /\
  ~ FarmScene.cropHealth s
    == Phaser.Clamp
         (FarmScene.healthScore (FarmScene.soilMoisture s)
            (FarmScene.nitrogen s) (FarmScene.pests s)) 0 100 /\
  FarmScene.cropHealth (scene (nextDay (mount Scenario.soaked))) = 70.
Proof.
  cbv zeta. split; [ reflexivity | ].
  split; [ vm_compute; reflexivity | ].
  split; [ | reflexivity ].
  intros E. vm_compute in E. discriminate E.
Qed.

(** C1, as the code has it: after every call of handleAction in a state in
    progress, cropHealth is clamp((soilMoisture*0.4 + nitrogen*0.4 +
    (100 - pests)*0.2) / 1.5, 0, 100) of the updated soilMoisture, nitrogen
    and pests; handleAction after the season's end and nextDay leave
    cropHealth as it was; the one direct assignment is init's, which starts
    the scene at 70. *)
Theorem cropHealth_recomputed (a : Action) (rnd : Draws) (p : Page)
    (data : WeatherData) :
  let s := scene p in
  let s' := FarmScene.handleAction a rnd s in
  FarmScene.cropHealth s'
  = (if FarmScene.complete s then FarmScene.cropHealth s
     else
       Phaser.Clamp
         ((FarmScene.soilMoisture s' * 0.4 + FarmScene.nitrogen s' * 0.4
           + (100 - FarmScene.pests s') * 0.2) / 1.5)
         0 100) /\
  FarmScene.cropHealth (scene (nextDay p)) = FarmScene.cropHealth s /\
  FarmScene.cropHealth (FarmScene.init data) = 70.
Proof.
  intros s s'. split; [ | split; [ apply nextDay_cropHealth | reflexivity ] ].
  destruct (FarmScene.complete s) eqn:H; subst s'.
  - now rewrite handleAction_complete.
  - apply (handleAction_cropHealth a rnd s H).
Qed.

(** ** The order of the soil-moisture updates and the irrigation scenario *)

(** Linear arithmetic with divisions by constants. *)
Ltac qlra := unfold Qdiv in *; cbn [Qinv Qnum Qden] in *; lra.

Lemma inject_Z_bounds z lo hi :
  (lo <= z <= hi)%Z -> inject_Z lo <= inject_Z z <= inject_Z hi.
Proof. intros [H1 H2]. split; now rewrite <- Zle_Qle. Qed.

Lemma revenue_middle health price :
  40 < health -> health <= 70 -> Step.revenue health price = 2 * price.
Proof.
  intros H1 H2. unfold Step.revenue. case_cmp; try reflexivity; exfalso; lra.
Qed.

Lemma healthScore_compat a b c a' b' c' :
  a == a' -> b == b' -> c == c' ->
  FarmScene.healthScore a b c == FarmScene.healthScore a' b' c'.
Proof.
  intros Ea Eb Ec. unfold FarmScene.healthScore. now rewrite Ea, Eb, Ec.
Qed.

(** C2, as the code has it: in every call of handleAction in a state in
    progress the rain delta (none -7, low -5, medium +6, high +12) is applied
    first, then the action's delta, and soil moisture is clamped once, on the
    sum; from soil moisture 55 under medium rain, Irrigate gives
    55 + 6 + 10 = 71 and the clamp changes nothing.  Money is charged the
    irrigation cost and, in the same call, credited the revenue of the new
    crop health: from nitrogen 40 and pests 10 that revenue is
    2 * marketPrice, so money ends at money - 3 + 2 * marketPrice. *)
Theorem soil_rain_then_action (a : Action) (rnd : Draws) (s : FarmScene.t)
    (H : FarmScene.complete s = false) :
  let s' := FarmScene.handleAction a rnd s in
  let unclamped :=
    Step.soilAfterAction a
      (Step.soilAfterRain (Step.rainToday s) (FarmScene.soilMoisture s)) in
  FarmScene.soilMoisture s' = Phaser.Clamp unclamped 0 100 /\
  (a = Irrigate -> Step.rainToday s = medium ->
   FarmScene.soilMoisture s == 55 ->
   unclamped == 55 + 6 + 10 /\
   FarmScene.soilMoisture s' == 71 /\
   FarmScene.money s'
   == FarmScene.money s - FarmSim.COST_IRRIGATE
      + Step.revenue (FarmScene.cropHealth s') (FarmScene.marketPrice s) /\
   (FarmScene.nitrogen s == 40 -> FarmScene.pests s == 10 ->
    0 <= FarmScene.cropHealth s <= 100 ->
    valid_draws rnd ->
    FarmScene.money s'
    == FarmScene.money s - FarmSim.COST_IRRIGATE
       + 2 * FarmScene.marketPrice s)).
Proof.
  intros s' unclamped.
  assert (Esoil : FarmScene.soilMoisture s' = Phaser.Clamp unclamped 0 100)
    by apply (handleAction_soil a rnd s H).
  split; [ exact Esoil | ].
  intros -> Hrain E55.
  assert (Eun : unclamped == 71).
  { subst unclamped. rewrite Hrain.
    cbn [Step.soilAfterAction Step.soilAfterRain].
    rewrite E55. reflexivity. }
  assert (Esoil' : FarmScene.soilMoisture s' == 71).
  { rewrite Esoil, Clamp_inside;
      [ exact Eun | rewrite Eun; split; discriminate ]. }
  pose proof (handleAction_money Irrigate rnd s H) as Emoney.
  cbv zeta in Emoney. fold s' in Emoney.
  change (Step.cost Irrigate) with FarmSim.COST_IRRIGATE in Emoney.
  split; [ rewrite Eun; reflexivity | ].
  split; [ exact Esoil' | ].
  split; [ exact Emoney | ].
  intros En Ep Hch (_ & Hdraw & _).
  rewrite Emoney.
  assert (En' : FarmScene.nitrogen s' == 40).
  { subst s'. rewrite (handleAction_nitrogen Irrigate rnd s H).
    rewrite Clamp_inside; [ exact En | rewrite En; split; discriminate ]. }
  pose proof (inject_Z_bounds _ _ _ Hdraw) as Hd.
  change (inject_Z 0) with 0 in Hd. change (inject_Z 5) with 5 in Hd.
  assert (Ep' : FarmScene.pests s'
                == 10 + (inject_Z (pestGrowthDraw rnd)
                         + (100 - FarmScene.cropHealth s) / 20)).
  { subst s'. rewrite (handleAction_pests Irrigate rnd s H).
    cbn [Step.pestsAfterAction].
    rewrite Clamp_inside; [ now rewrite Ep | ].
    rewrite Ep. split; qlra. }
  assert (Ech : FarmScene.cropHealth s'
                == FarmScene.healthScore 71 40 (FarmScene.pests s')).
  { pose proof (handleAction_cropHealth Irrigate rnd s H) as E.
    cbv zeta in E. fold s' in E. rewrite E.
    rewrite Clamp_inside;
      [ apply healthScore_compat; [assumption | assumption | reflexivity] | ].
    rewrite (healthScore_compat _ _ _ 71 40 (FarmScene.pests s'))
      by (assumption || reflexivity).
    unfold FarmScene.healthScore. rewrite Ep'. split; qlra. }
  rewrite revenue_middle; [ reflexivity | | ];
    rewrite Ech; unfold FarmScene.healthScore; rewrite Ep'; qlra.
Qed.

Lemma soil_rain_then_action_witness :
  FarmScene.soilMoisture
    (FarmScene.handleAction Irrigate Scenario.calm Scenario.start)
  = Phaser.Clamp (55 + 6 + 10) 0 100.
Proof.
  exact (proj1 (soil_rain_then_action Irrigate Scenario.calm Scenario.start
                  eq_refl)).
Defined.

(** In the irrigation scenario money does not end at 10 less the
    irrigation cost: the call also credits 2 * 1.1 of revenue. *)
Lemma irrigation_money_not_cost_only :
  let s' := FarmScene.handleAction Irrigate Scenario.calm Scenario.start in
  FarmScene.soilMoisture s' == 71 /\
  FarmScene.money s' == 9.2 /\
  ~ FarmScene.money s'
    == FarmScene.money Scenario.start - FarmSim.COST_IRRIGATE.
Proof.
  cbv zeta. split; [ vm_compute; reflexivity | ].
  split; [ vm_compute; reflexivity | ].
  intros E. vm_compute in E. discriminate E.
Qed.

(** ** Ranges of the fields *)

Lemma penalty_nonneg a rain : 0 <= Step.penalty a rain.
Proof. destruct a, rain; discriminate. Qed.

Lemma bounded_ledger s s' :
  Step.ledger s' = Step.ledger s -> Step.bounded s -> Step.bounded s'.
Proof.
  unfold Step.ledger, Step.bounded. intros E.
  injection E as _ -> -> -> _ -> ->.
  trivial.
Qed.

Lemma bounded_init data : Step.bounded (FarmScene.init data).
Proof.
  unfold Step.bounded, Step.within. cbn.
  repeat split; discriminate.
Qed.

(** After a call in progress every clamped field is in its range. *)
Lemma handleAction_ranges a rnd s :
  FarmScene.complete s = false ->
  let s' := FarmScene.handleAction a rnd s in
  Step.within 0 100 (FarmScene.soilMoisture s') /\
  Step.within 0 100 (FarmScene.nitrogen s') /\
  Step.within 0 100 (FarmScene.pests s') /\
  Step.within 0 100 (FarmScene.cropHealth s') /\
  Step.within 0.8 1.5 (FarmScene.marketPrice s') /\
  FarmScene.sustainability s' <= FarmScene.sustainability s.
Proof.
  intros H s'. subst s'. unfold Step.within.
  rewrite (handleAction_cropHealth a rnd s H).
  rewrite (handleAction_soil a rnd s H), (handleAction_nitrogen a rnd s H),
    (handleAction_pests a rnd s H), (handleAction_marketPrice a rnd s H),
    (handleAction_sustainability a rnd s H).
  pose proof (penalty_nonneg a (Step.rainToday s)).
  repeat split; try apply Clamp_percent; try apply Clamp_price; lra.
Qed.

Lemma bounded_handleAction a rnd s :
  Step.bounded s -> Step.bounded (FarmScene.handleAction a rnd s).
Proof.
  intros B. destruct (FarmScene.complete s) eqn:H.
  - now rewrite handleAction_complete.
  - destruct (handleAction_ranges a rnd s H) as (_ & ? & ? & ? & ? & ?).
    destruct B as (_ & _ & _ & _ & ?).
    unfold Step.bounded, Step.within in *. repeat split; try tauto; lra.
Qed.

Lemma bounded_click p c :
  Step.bounded (scene p) -> Step.bounded (scene (click p c)).
Proof.
  destruct c as [a rnd | ]; cbn [click].
  - apply bounded_handleAction.
  - apply bounded_ledger, nextDay_ledger.
Qed.

Lemma bounded_play cs : forall p,
  Step.bounded (scene p) -> Step.bounded (scene (play p cs)).
Proof.
  induction cs as [ | c cs IH]; intros p B; [ exact B | ].
  apply (IH (click p c)), bounded_click, B.
Qed.

(** Repeated irrigation under medium rain: two points of sustainability go
    with each call, and nothing stops the calls. *)
Lemma play_irrigate rnd n : forall p,
  FarmScene.complete (scene p) = false ->
  Step.rainToday (scene p) = medium ->
  let p' := play p (repeat (ClickAction Irrigate rnd) n) in
  FarmScene.complete (scene p') = false /\
  FarmScene.sustainability (scene p')
  == FarmScene.sustainability (scene p) - 2 * inject_Z (Z.of_nat n).
Proof.
  induction n as [ | n IH]; intros p H R.
  - cbn. split; [ exact H | ring ].
  - cbn [repeat]. cbv zeta.
    change (play p (ClickAction Irrigate rnd
                    :: repeat (ClickAction Irrigate rnd) n))
      with (play (handleAction Irrigate rnd p)
              (repeat (ClickAction Irrigate rnd) n)).
    destruct (IH (handleAction Irrigate rnd p)) as [H' E].
    + cbn [handleAction scene]. now rewrite handleAction_still.
    + cbn [handleAction scene]. now rewrite handleAction_rainToday.
    + split; [ exact H' | ].
      rewrite E. cbn [handleAction scene].
      rewrite (handleAction_sustainability Irrigate rnd (scene p) H), R.
      rewrite Nat2Z.inj_succ. unfold Z.succ. rewrite inject_Z_plus.
      cbn [Step.penalty]. ring.
Qed.

(** Forty-one irrigations on a day of medium rain take sustainability from
    80 to -2; and soil moisture read from the weather data above 100 is
    still above 100 after a day is advanced. *)
Lemma sustainability_and_soil_leave_range :
  let p :=
    play (mount Scenario.oneWetDay)
      (repeat (ClickAction Irrigate Scenario.calm) 41) in
  let p' := nextDay (mount Scenario.soaked) in
  (FarmScene.sustainability (scene p) == -2 /\
   ~ Step.within 0 100 (FarmScene.sustainability (scene p))) /\
  (FarmScene.soilMoisture (scene p') == 130 /\
   ~ Step.within 0 100 (FarmScene.soilMoisture (scene p'))).
Proof.
  cbv zeta. split.
  - destruct (play_irrigate Scenario.calm 41 (mount Scenario.oneWetDay))
      as [_ E]; [ reflexivity | reflexivity | ].
    assert (E' : FarmScene.sustainability
                   (scene (play (mount Scenario.oneWetDay)
                             (repeat (ClickAction Irrigate Scenario.calm) 41)))
                 == -2)
      by (rewrite E; reflexivity).
    split; [ exact E' | ].
    unfold Step.within. rewrite E'. intros [L _]. now apply L.
  - split; [ reflexivity | ].
    unfold Step.within. intros [_ U]. now apply U.
Qed.

(** C3, as the code has it: after a call of handleAction in a state in
    progress soilMoisture, nitrogen, pests and cropHealth are in [0,100] and
    marketPrice is in [0.8,1.5]; nextDay changes none of the numeric fields;
    so after every click of every session nitrogen, pests, cropHealth and
    marketPrice are in range, while soilMoisture is as read from the weather
    data until the first action.  Sustainability is not clamped: a call
    leaves it or lowers it, so it is at most its initial 80 and has no lower
    bound. *)
Theorem clamped_fields_in_range (data : WeatherData) (cs : list Click)
    (a : Action) (rnd : Draws) :
  let p := play (mount data) cs in
  let s' := FarmScene.handleAction a rnd (scene p) in
  (Step.within 0 100 (FarmScene.nitrogen (scene p)) /\
   Step.within 0 100 (FarmScene.pests (scene p)) /\
   Step.within 0 100 (FarmScene.cropHealth (scene p)) /\
   Step.within 0.8 1.5 (FarmScene.marketPrice (scene p)) /\
   FarmScene.sustainability (scene p) <= 80) /\
  (FarmScene.complete (scene p) = false ->
   Step.within 0 100 (FarmScene.soilMoisture s') /\
   Step.within 0 100 (FarmScene.nitrogen s') /\
   Step.within 0 100 (FarmScene.pests s') /\
   Step.within 0 100 (FarmScene.cropHealth s') /\
   Step.within 0.8 1.5 (FarmScene.marketPrice s') /\
   FarmScene.sustainability s' <= FarmScene.sustainability (scene p)) /\
  Step.ledger (scene (nextDay p)) = Step.ledger (scene p).
Proof.
  intros p s'. split; [ | split ].
  - apply (bounded_play cs (mount data)), bounded_init.
  - intros H. apply (handleAction_ranges a rnd (scene p) H).
  - apply nextDay_ledger.
Qed.

Lemma clamped_fields_in_range_witness :
  Step.within 0 100
    (FarmScene.soilMoisture
       (FarmScene.handleAction Irrigate Scenario.calm
          (scene (play (mount Scenario.soaked) [])))).
Proof.
  exact (proj1 (proj1 (proj2 (clamped_fields_in_range Scenario.soaked []
                                Irrigate Scenario.calm))
                  eq_refl)).
Defined.

(** ** Advancing a day *)

(** C10: on a day that is not the last, nextDay empties actionsTakenToday
    and adds one to the day counter, and changes nothing else of the scene:
    soilMoisture, nitrogen, pests, cropHealth, money, sustainability and
    marketPrice are as before, whatever the day's rain and whether or not an
    action was taken; the season stays in progress, and the page gains one
    line of the action log. *)
Theorem nextDay_frame (p : Page)
    (H : (FarmScene.day (scene p)
          < Z.of_nat (length (FarmScene.rainPattern (scene p))))%Z) :
  let s := scene p in
  let s' := scene (nextDay p) in
  s' = FarmScene.set_day (FarmScene.day s + 1)
         (FarmScene.set_actionsTakenToday [] s) /\
  FarmScene.day s' = (FarmScene.day s + 1)%Z /\
  FarmScene.actionsTakenToday s' = [] /\
  Step.ledger s' = Step.ledger s /\
  FarmScene.soilMoisture s' = FarmScene.soilMoisture s /\
  FarmScene.rainPattern s' = FarmScene.rainPattern s /\
  FarmScene.complete s' = false /\
  showEndModal (nextDay p) = showEndModal p /\
  endSummary (nextDay p) = endSummary p /\
  length (actionLog (nextDay p)) = S (length (actionLog p)).
Proof.
  intros s s'. subst s s'. rewrite (nextDay_midseason p H).
  cbn [scene showEndModal endSummary actionLog].
  repeat split.
  - unfold FarmScene.complete. cbn. apply Z.ltb_ge. lia.
  - rewrite length_app. cbn. lia.
Qed.

Lemma nextDay_frame_witness :
  Step.ledger (scene (nextDay (mount Scenario.soaked)))
  = Step.ledger (scene (mount Scenario.soaked)).
Proof.
  assert (H : (FarmScene.day (scene (mount Scenario.soaked))
               < Z.of_nat (length (FarmScene.rainPattern
                                     (scene (mount Scenario.soaked)))))%Z)
    by reflexivity.
  destruct (nextDay_frame (mount Scenario.soaked) H) as (_ & _ & _ & E & _).
  exact E.
Defined.

(** ** More than one action a day *)

(** C9: handleAction is not limited to one call a day.  In a state in
    progress, whatever actionsTakenToday already holds, a call is one whole
    step: it appends its action to actionsTakenToday and applies the rain
    delta and the action to soil moisture, the fertilizer to nitrogen, the
    scouting and the passive growth to pests, the crop-health formula, the
    penalty, the cost and the revenue, and the price drift, with the day
    counter unchanged.  The first call leaves the state in progress on the
    same day, and a second call the same day is again one whole step, from
    the result of the first: the day's rain is counted a second time. *)
Theorem handleAction_again_same_day (a1 a2 : Action) (r1 r2 : Draws)
    (s : FarmScene.t) (H : FarmScene.complete s = false) :
  let s1 := FarmScene.handleAction a1 r1 s in
  let s2 := FarmScene.handleAction a2 r2 s1 in
  FarmScene.complete s1 = false /\
  FarmScene.day s1 = FarmScene.day s /\
  FarmScene.day s2 = FarmScene.day s /\
  FarmScene.actionsTakenToday s1 = FarmScene.actionsTakenToday s ++ [a1] /\
  FarmScene.actionsTakenToday s2
  = FarmScene.actionsTakenToday s ++ [a1; a2] /\
  FarmScene.soilMoisture s2
  = Phaser.Clamp
      (Step.soilAfterAction a2
         (Step.soilAfterRain (Step.rainToday s) (FarmScene.soilMoisture s1)))
      0 100 /\
  FarmScene.pests s2
  = Phaser.Clamp
      (Step.pestsAfterAction a2 r2 (FarmScene.pests s1)
       + (inject_Z (pestGrowthDraw r2)
          + (100 - FarmScene.cropHealth s1) / 20))
      0 100 /\
  FarmScene.cropHealth s2
  = Phaser.Clamp
      (FarmScene.healthScore (FarmScene.soilMoisture s2)
         (FarmScene.nitrogen s2) (FarmScene.pests s2))
      0 100 /\
  FarmScene.money s2
  == FarmScene.money s1 - Step.cost a2
     + Step.revenue (FarmScene.cropHealth s2) (FarmScene.marketPrice s1) /\
  FarmScene.marketPrice s2
  = Phaser.Clamp (FarmScene.marketPrice s1 + priceDrift r2) 0.8 1.5 /\
  Step.stepped a1 r1 s s1 /\
  Step.stepped a2 r2 s1 s2 /\
  Step.rainToday s1 = Step.rainToday s.
Proof.
  intros s1 s2.
  assert (H1 : FarmScene.complete s1 = false)
    by (subst s1; now rewrite handleAction_still).
  assert (R1 : Step.rainToday s1 = Step.rainToday s)
    by apply handleAction_rainToday.
  split; [ exact H1 | ].
  split; [ apply handleAction_day | ].
  split; [ subst s2 s1; now rewrite !handleAction_day | ].
  split; [ apply (handleAction_actions a1 r1 s H) | ].
  split.
  { subst s2. rewrite (handleAction_actions a2 r2 s1 H1).
    subst s1. rewrite (handleAction_actions a1 r1 s H).
    now rewrite <- app_assoc. }
  split; [ rewrite <- R1; apply (handleAction_soil a2 r2 s1 H1) | ].
  split; [ apply (handleAction_pests a2 r2 s1 H1) | ].
  split; [ apply (handleAction_cropHealth a2 r2 s1 H1) | ].
  split; [ apply (handleAction_money a2 r2 s1 H1) | ].
  split; [ apply (handleAction_marketPrice a2 r2 s1 H1) | ].
  split; [ apply (handleAction_stepped a1 r1 s H) | ].
  split; [ apply (handleAction_stepped a2 r2 s1 H1) | exact R1 ].
Qed.

Lemma handleAction_again_same_day_witness :
  FarmScene.actionsTakenToday
    (FarmScene.handleAction Wait Scenario.calm
       (FarmScene.handleAction Irrigate Scenario.calm Scenario.start))
  = FarmScene.actionsTakenToday Scenario.start ++ [Irrigate; Wait].
Proof.
  destruct (handleAction_again_same_day Irrigate Wait Scenario.calm
              Scenario.calm Scenario.start eq_refl)
    as (_ & _ & _ & _ & E & _).
  exact E.
Defined.

(** Two waits on the scenario's day of medium rain: the rain's six points
    of soil moisture are added twice. *)
Example rain_counted_twice :
  FarmScene.soilMoisture
    (FarmScene.handleAction Wait Scenario.calm
       (FarmScene.handleAction Wait Scenario.calm Scenario.start))
  == 55 + 6 + 6.
Proof. vm_compute. reflexivity. Qed.

(** ** The end of the season *)

Lemma complete_false s :
  FarmScene.complete s = false <->
  (FarmScene.day s <= Z.of_nat (length (FarmScene.rainPattern s)))%Z.
Proof. unfold FarmScene.complete. apply Z.ltb_ge. Qed.

Lemma finished_click p c : Step.finished p -> click p c = p.
Proof.
  intros (H & _). destruct c as [a rnd | ]; cbn [click].
  - unfold handleAction. rewrite handleAction_complete by exact H.
    now destruct p.
  - now apply nextDay_complete.
Qed.

Lemma finished_play cs : forall p, Step.finished p -> play p cs = p.
Proof.
  induction cs as [ | c cs IH]; intros p F; [ reflexivity | ].
  change (play p (c :: cs)) with (play (click p c) cs).
  rewrite (finished_click p c F). now apply IH.
Qed.

Lemma nextDays_action a rnd cs :
  Step.nextDays (ClickAction a rnd :: cs) = Step.nextDays cs.
Proof. reflexivity. Qed.

Lemma nextDays_next cs :
  Step.nextDays (ClickNextDay :: cs) = S (Step.nextDays cs).
Proof. reflexivity. Qed.

(** From a state in progress, as many clicks on Next Day as there are days
    left end the season, whatever actions come in between or after. *)
Lemma play_to_end cs : forall p,
  FarmScene.complete (scene p) = false ->
  Z.of_nat (Step.nextDays cs)
  = (Z.of_nat (length (FarmScene.rainPattern (scene p))) + 1
     - FarmScene.day (scene p))%Z ->
  Step.finished (play p cs).
Proof.
  induction cs as [ | c cs IH]; intros p H E.
  - apply complete_false in H. cbn in E. lia.
  - change (play p (c :: cs)) with (play (click p c) cs).
    destruct c as [a rnd | ].
    + rewrite nextDays_action in E. apply IH; cbn [click handleAction scene].
      * now rewrite handleAction_still.
      * now rewrite handleAction_rainPattern, handleAction_day.
    + rewrite nextDays_next, Nat2Z.inj_succ in E. cbn [click].
      pose proof (proj1 (complete_false _) H) as Hle.
      destruct (Z.eq_dec (FarmScene.day (scene p))
                  (Z.of_nat (length (FarmScene.rainPattern (scene p)))))
        as [Elast | Hmid].
      * destruct (nextDay_last p Elast) as [F _].
        now rewrite (finished_play cs _ F).
      * assert (Hlt : (FarmScene.day (scene p)
                       < Z.of_nat (length (FarmScene.rainPattern (scene p))))%Z)
          by lia.
        apply IH; rewrite (nextDay_midseason p Hlt); cbn [scene].
        -- apply complete_false. cbn. lia.
        -- cbn. lia.
Qed.

(** With fewer clicks on Next Day than days left, the season is still in
    progress. *)
Lemma play_in_progress cs : forall p,
  FarmScene.complete (scene p) = false ->
  (Z.of_nat (Step.nextDays cs)
   < Z.of_nat (length (FarmScene.rainPattern (scene p))) + 1
     - FarmScene.day (scene p))%Z ->
  FarmScene.complete (scene (play p cs)) = false.
Proof.
  induction cs as [ | c cs IH]; intros p H E; [ exact H | ].
  change (play p (c :: cs)) with (play (click p c) cs).
  destruct c as [a rnd | ].
  - rewrite nextDays_action in E. apply IH; cbn [click handleAction scene].
    + now rewrite handleAction_still.
    + now rewrite handleAction_rainPattern, handleAction_day.
  - rewrite nextDays_next, Nat2Z.inj_succ in E. cbn [click].
    assert (Hlt : (FarmScene.day (scene p)
                   < Z.of_nat (length (FarmScene.rainPattern (scene p))))%Z)
      by lia.
    apply IH; rewrite (nextDay_midseason p Hlt); cbn [scene].
    + apply complete_false. cbn. lia.
    + cbn. lia.
Qed.

Lemma mount_length data :
  length (FarmScene.rainPattern (scene (mount data))) = length (precip data).
Proof. cbn. unfold rainPattern. apply length_map. Qed.

(** C7: from day 1 of a season of at least one day, a session with exactly
    as many clicks on Next Day as the season has days, and any actions in
    between or after, ends with the season complete and the summary of final
    profit, sustainability and crop health on show; with fewer such clicks
    the season is still in progress; and once the season is complete every
    further handleAction is a no-op that leaves the scene, and the page, as
    they were. *)
Theorem season_completes (data : WeatherData) (cs : list Click)
    (Hdays : (1 <= length (precip data))%nat)
    (Hcs : Step.nextDays cs = length (precip data)) :
  let p := play (mount data) cs in
  FarmScene.complete (scene p) = true /\
  showEndModal p = true /\
  endSummary p
  = Some {| finalProfit := JS.toFixed 1 (FarmScene.money (scene p));
            finalSustainability :=
              JS.toFixed 0 (FarmScene.sustainability (scene p));
            finalCropHealth :=
              JS.toFixed 0 (FarmScene.cropHealth (scene p)) |} /\
  (forall cs',
     (Step.nextDays cs' < length (precip data))%nat ->
     FarmScene.complete (scene (play (mount data) cs')) = false) /\
  (forall a rnd,
     FarmScene.handleAction a rnd (scene p) = scene p /\
     handleAction a rnd p = p).
Proof.
  intros p.
  assert (H0 : FarmScene.complete (scene (mount data)) = false).
  { apply complete_false. rewrite mount_length. cbn. lia. }
  assert (F : Step.finished p).
  { subst p. apply play_to_end; [ exact H0 | ].
    rewrite mount_length, Hcs. cbn. lia. }
  destruct F as (Fc & Fm & Fs).
  split; [ exact Fc | ]. split; [ exact Fm | ]. split; [ exact Fs | ].
  split.
  - intros cs' Hlt. apply play_in_progress; [ exact H0 | ].
    rewrite mount_length. cbn. lia.
  - intros a rnd.
    split; [ now apply handleAction_complete | ].
    apply (finished_click p (ClickAction a rnd)).
    unfold Step.finished. auto.
Qed.

Lemma season_completes_witness :
  FarmScene.complete
    (scene (play (mount Scenario.oneWetDay)
              [ClickAction Irrigate Scenario.calm; ClickNextDay]))
  = true.
Proof.
  assert (Hdays : (1 <= length (precip Scenario.oneWetDay))%nat)
    by (cbn; lia).
  exact (proj1 (season_completes Scenario.oneWetDay
                  [ClickAction Irrigate Scenario.calm; ClickNextDay]
                  Hdays eq_refl)).
Defined.

(** ** The soil-water balance of the map screen *)

Lemma toFixed2_capacity x :
  0 <= x <= MapPage.fc_mm -> 0 <= JS.toFixed 2 x <= MapPage.fc_mm.
Proof.
  intros [H0 H1]. unfold MapPage.fc_mm in *. unfold JS.toFixed.
  change (inject_Z (10 ^ Z.of_nat 2)) with 100.
  case_ltb x 0; [ exfalso; lra | ].
  rewrite (Qabs_pos x H0).
  assert (L : (0 <= Qfloor (x * 100 + (1 # 2)))%Z).
  { change 0%Z with (Qfloor 0). apply Qfloor_resp_le. lra. }
  assert (U : (Qfloor (x * 100 + (1 # 2)) <= 15000)%Z).
  { change 15000%Z with (Qfloor (150 * 100 + (1 # 2))).
    apply Qfloor_resp_le. lra. }
  rewrite Zle_Qle in L, U.
  change (inject_Z 0) with 0 in L. change (inject_Z 15000) with 15000 in U.
  split; qlra.
Qed.

(** The two tests after the subtraction are a clamp to [0, fc_mm]. *)
Lemma balanceDay_aw kc b pr eto :
  MapPage.aw (MapPage.balanceDay kc b pr eto)
  == Phaser.Clamp
       (MapPage.aw b + pr - JS.Math_min (MapPage.aw b + pr) (eto * kc))
       0 MapPage.fc_mm.
Proof.
  unfold MapPage.balanceDay, Phaser.Clamp, JS.Math_max. cbn [MapPage.aw].
  set (x := MapPage.aw b + pr - JS.Math_min (MapPage.aw b + pr) (eto * kc)).
  clearbody x. unfold JS.Math_min, MapPage.fc_mm.
  case_cmp; lra.
Qed.

Lemma balanceDay_range kc b pr eto :
  0 <= MapPage.aw (MapPage.balanceDay kc b pr eto) <= MapPage.fc_mm.
Proof.
  rewrite balanceDay_aw. apply Clamp_range. discriminate.
Qed.

Lemma balanceDay_soil kc b pr eto :
  MapPage.soil_series (MapPage.balanceDay kc b pr eto)
  = MapPage.soil_series b
    ++ [JS.toFixed 2 (MapPage.aw (MapPage.balanceDay kc b pr eto))].
Proof. reflexivity. Qed.

(** What the loop keeps true of the balance and of the series so far. *)
Lemma balance_fold sqrt computeRa doyOfKey lat kc rows : forall b,
  0 <= MapPage.aw b <= MapPage.fc_mm ->
  Forall (Step.within 0 MapPage.fc_mm) (MapPage.soil_series b) ->
  let b' :=
    fold_left (MapPage.balanceStep sqrt computeRa doyOfKey lat kc) rows b in
  0 <= MapPage.aw b' <= MapPage.fc_mm /\
  Forall (Step.within 0 MapPage.fc_mm) (MapPage.soil_series b') /\
  length (MapPage.soil_series b')
  = (length (MapPage.soil_series b) + length rows)%nat.
Proof.
  induction rows as [ | r rows IH]; intros b Hb Hs.
  - cbn. repeat split; try tauto. lia.
  - cbn [fold_left]. cbv zeta.
    set (b1 := MapPage.balanceStep sqrt computeRa doyOfKey lat kc b r).
    assert (H1 : 0 <= MapPage.aw b1 <= MapPage.fc_mm)
      by apply balanceDay_range.
    destruct (IH b1 H1) as (Ha & Hf & Hl).
    + subst b1. unfold MapPage.balanceStep. rewrite balanceDay_soil.
      apply Forall_app. split; [ exact Hs | ].
      constructor; [ | constructor ].
      apply toFixed2_capacity, balanceDay_range.
    + split; [ exact Ha | ]. split; [ exact Hf | ].
      rewrite Hl. subst b1. unfold MapPage.balanceStep.
      rewrite balanceDay_soil, length_app. cbn. lia.
Qed.

(** ** The balance of the map page with NaN *)

Lemma computeRa_nan PI sin cos tan acos lat doy :
  1 < Radiation.sunset PI sin tan lat doy
  \/ Radiation.sunset PI sin tan lat doy < -1 ->
  Radiation.computeRa PI sin cos tan acos lat doy = None.
Proof.
  unfold Radiation.sunset, Radiation.computeRa, Radiation.Math_acos.
  cbv zeta. intros H.
  match goal with
  | |- context [JS.ltb 1 ?x || JS.ltb ?x (-1)] =>
      assert (E : JS.ltb 1 x || JS.ltb x (-1) = true)
  end.
  { apply orb_true_iff. rewrite !ltb_lt. exact H. }
  rewrite E. reflexivity.
Qed.

Lemma computeRa_number PI sin cos tan acos lat doy :
  -1 <= Radiation.sunset PI sin tan lat doy <= 1 ->
  is_Some (Radiation.computeRa PI sin cos tan acos lat doy).
Proof.
  unfold Radiation.sunset, Radiation.computeRa, Radiation.Math_acos.
  cbv zeta. intros [H1 H2].
  match goal with
  | |- context [JS.ltb 1 ?x || JS.ltb ?x (-1)] =>
      assert (E : JS.ltb 1 x || JS.ltb x (-1) = false)
  end.
  { apply orb_false_iff. split; apply ltb_ge; assumption. }
  rewrite E. cbn. eexists. reflexivity.
Qed.

(** A day whose evapotranspiration is NaN, and a day that starts from a
    balance that is NaN, leave the balance NaN and push NaN. *)
Lemma balanceDay_nan kc b pr eto :
  eto = None \/ Radiation.aw b = None ->
  Radiation.aw (Radiation.balanceDay kc b pr eto) = None /\
  Radiation.soil_series (Radiation.balanceDay kc b pr eto)
  = Radiation.soil_series b ++ [None].
Proof.
  unfold Radiation.balanceDay. cbn [Radiation.aw Radiation.soil_series].
  intros [-> | ->].
  - destruct (Radiation.aw b); split; reflexivity.
  - destruct eto; split; reflexivity.
Qed.

Lemma balance_nan PI sin cos tan acos sqrt doyOfKey lat kc rows : forall b,
  Radiation.aw b = None ->
  let b' :=
    fold_left
      (Radiation.balanceStep PI sin cos tan acos sqrt doyOfKey lat kc)
      rows b in
  Radiation.aw b' = None /\
  Radiation.soil_series b'
  = Radiation.soil_series b ++ replicate (length rows) None.
Proof.
  induction rows as [ | r rows IH]; intros b Hb.
  - cbn. rewrite app_nil_r. auto.
  - cbn [fold_left length replicate]. cbv zeta.
    set (b1 := Radiation.balanceStep PI sin cos tan acos sqrt doyOfKey lat
                 kc b r).
    assert (H1 : Radiation.aw b1 = None /\
                 Radiation.soil_series b1 = Radiation.soil_series b ++ [None])
      by (apply balanceDay_nan; right; exact Hb).
    destruct H1 as [Ha Hs]. destruct (IH b1 Ha) as [Ha' Hs'].
    split; [ exact Ha' | ].
    rewrite Hs', Hs, <- app_assoc. reflexivity.
Qed.

Lemma within_nan lo hi : ~ JSNum.within lo hi None.
Proof. intros (v & E & _). discriminate E. Qed.

(** The loop over numbers alone, inside the loop with NaN. *)
Lemma balanceDay_ofNumbers kc b pr eto :
  Radiation.balanceDay kc (Radiation.ofNumbers b) pr (Some eto)
  = Radiation.ofNumbers (MapPage.balanceDay kc b pr eto).
Proof.
  unfold Radiation.balanceDay, MapPage.balanceDay, Radiation.ofNumbers.
  cbn [Radiation.aw Radiation.soil_series Radiation.eto_series
       MapPage.aw MapPage.soil_series MapPage.eto_series].
  rewrite !map_app. cbn [map].
  unfold JSNum.add, JSNum.sub, JSNum.mul, JSNum.Math_min, JSNum.lift2,
    JSNum.gtb, JSNum.ltb, JSNum.toFixed, option_map.
  set (x := MapPage.aw b + pr - JS.Math_min (MapPage.aw b + pr) (eto * kc)).
  destruct (JS.ltb MapPage.fc_mm x).
  - destruct (JS.ltb MapPage.fc_mm 0); reflexivity.
  - destruct (JS.ltb x 0); reflexivity.
Qed.

Lemma etoOf_number PI sin cos tan acos sqrt doyOfKey lat r :
  (is_Some (MapPage.tmx r) -> is_Some (MapPage.tmn r) ->
   -1 <= Radiation.sunset PI sin tan lat (doyOfKey (MapPage.key r)) <= 1) ->
  Radiation.etoOf PI sin cos tan acos sqrt doyOfKey lat r
  = Some (MapPage.etoOf sqrt (Radiation.numericRa PI sin cos tan acos)
            doyOfKey lat r).
Proof.
  intros H. unfold Radiation.etoOf, MapPage.etoOf.
  destruct (MapPage.tmx r) as [tmax | ]; [ | reflexivity ].
  destruct (MapPage.tmn r) as [tmin | ]; [ | reflexivity ].
  destruct (computeRa_number PI sin cos tan acos lat
              (doyOfKey (MapPage.key r))) as [ra E].
  { apply H; eexists; reflexivity. }
  unfold Radiation.hargreavesETo, MapPage.hargreavesETo,
    Radiation.numericRa.
  rewrite E. reflexivity.
Qed.

Lemma balance_ofNumbers PI sin cos tan acos sqrt doyOfKey lat kc rows :
  Forall
    (fun r =>
       is_Some (MapPage.tmx r) -> is_Some (MapPage.tmn r) ->
       -1 <= Radiation.sunset PI sin tan lat (doyOfKey (MapPage.key r)) <= 1)
    rows ->
  forall b,
  fold_left (Radiation.balanceStep PI sin cos tan acos sqrt doyOfKey lat kc)
    rows (Radiation.ofNumbers b)
  = Radiation.ofNumbers
      (fold_left
         (MapPage.balanceStep sqrt (Radiation.numericRa PI sin cos tan acos)
            doyOfKey lat kc)
         rows b).
Proof.
  induction 1 as [ | r rows Hr _ IH]; intros b; [ reflexivity | ].
  cbn [fold_left]. rewrite <- IH. f_equal.
  unfold Radiation.balanceStep, MapPage.balanceStep.
  rewrite (etoOf_number _ _ _ _ _ _ _ _ _ Hr).
  apply balanceDay_ofNumbers.
Qed.

(** C4: the loop starts the balance at fc_mm * 0.5 and clamps it with the
    two tests [aw > fc_mm] and [aw < 0], which are both false of NaN.  On a
    day with both temperatures on which the argument of [Math.acos] in
    [computeRa] is outside [-1, 1] (beyond a polar circle, in the polar
    night or the polar day), the radiation is NaN, so are the day's
    evapotranspiration and the balance, and the soil-moisture value pushed
    that day and on every later day is NaN: the series emitted is not
    within [0, fc_mm]. *)
Theorem polar_day_spoils_soil_series
    (PI : Q) (sin cos tan acos sqrt : Q -> Q) (doyOfKey : string -> Z)
    (lat : Q) (crop : Radiation.Crop)
    (before after : list MapPage.Row) (r : MapPage.Row)
    (Hx : is_Some (MapPage.tmx r)) (Hn : is_Some (MapPage.tmn r))
    (Hp : 1 < Radiation.sunset PI sin tan lat (doyOfKey (MapPage.key r))
          \/ Radiation.sunset PI sin tan lat (doyOfKey (MapPage.key r)) < -1) :
  let run :=
    Radiation.balance PI sin cos tan acos sqrt doyOfKey lat crop in
  Radiation.aw (run []) = Some (MapPage.fc_mm * 0.5) /\
  Radiation.computeRa PI sin cos tan acos lat (doyOfKey (MapPage.key r))
  = None /\
  Radiation.etoOf PI sin cos tan acos sqrt doyOfKey lat r = None /\
  Radiation.aw (run (before ++ r :: after)) = None /\
  Radiation.soil_series (run (before ++ r :: after))
  = Radiation.soil_series (run before)
    ++ replicate (S (length after)) None /\
  ~ Forall (JSNum.within 0 MapPage.fc_mm)
      (Radiation.soil_series (run (before ++ r :: after))).
Proof.
  intros run.
  pose proof (computeRa_nan PI sin cos tan acos lat _ Hp) as ERa.
  assert (Eeto : Radiation.etoOf PI sin cos tan acos sqrt doyOfKey lat r
                 = None).
  { unfold Radiation.etoOf. destruct Hx as [tmax ->], Hn as [tmin ->].
    rewrite ERa. reflexivity. }
  assert (Hrun : Radiation.aw (run (before ++ r :: after)) = None /\
                 Radiation.soil_series (run (before ++ r :: after))
                 = Radiation.soil_series (run before)
                   ++ replicate (S (length after)) None).
  { subst run. unfold Radiation.balance.
    rewrite fold_left_app. cbn [fold_left].
    set (b := fold_left _ before _).
    set (b1 := Radiation.balanceStep PI sin cos tan acos sqrt doyOfKey lat
                 (Radiation.kc crop) b r).
    assert (H1 : Radiation.aw b1 = None /\
                 Radiation.soil_series b1 = Radiation.soil_series b ++ [None]).
    { subst b1. unfold Radiation.balanceStep.
      apply balanceDay_nan. left. exact Eeto. }
    destruct H1 as [Ha Hs].
    destruct (balance_nan PI sin cos tan acos sqrt doyOfKey lat
                (Radiation.kc crop) after b1 Ha) as [Ha' Hs'].
    split; [ exact Ha' | ].
    rewrite Hs', Hs, <- app_assoc. reflexivity. }
  destruct Hrun as [Ha Hs].
  split; [ reflexivity | ]. split; [ exact ERa | ].
  split; [ exact Eeto | ]. split; [ exact Ha | ]. split; [ exact Hs | ].
  rewrite Hs. intros HF. apply Forall_app in HF. destruct HF as [_ HF].
  cbn [replicate] in HF. apply Forall_cons in HF. destruct HF as [HF _].
  exact (within_nan _ _ HF).
Qed.

(** At latitude 70 on 21 December, with the rational approximations of the
    sine and the tangent: the first day's soil moisture is NaN. *)
Lemma polar_day_spoils_soil_series_witness :
  Radiation.soil_series
    (Radiation.balance Polar.PI Polar.sin Polar.cos Polar.tan Polar.acos
       Polar.sqrt Polar.doyOfKey 70 Radiation.maize [Polar.midwinter])
  = [None].
Proof.
  assert (Hx : is_Some (MapPage.tmx Polar.midwinter))
    by (eexists; reflexivity).
  assert (Hn : is_Some (MapPage.tmn Polar.midwinter))
    by (eexists; reflexivity).
  assert (Hp : 1 < Radiation.sunset Polar.PI Polar.sin Polar.tan 70
                     (Polar.doyOfKey (MapPage.key Polar.midwinter))
               \/ Radiation.sunset Polar.PI Polar.sin Polar.tan 70
                    (Polar.doyOfKey (MapPage.key Polar.midwinter)) < -1)
    by (left; vm_compute; reflexivity).
  destruct (polar_day_spoils_soil_series Polar.PI Polar.sin Polar.cos
              Polar.tan Polar.acos Polar.sqrt Polar.doyOfKey 70
              Radiation.maize [] [] Polar.midwinter Hx Hn Hp)
    as (_ & _ & _ & _ & E & _).
  exact E.
Defined.

(** ** Missing values in the upstream response *)

(** The fill value -999 is kept as the number it is, for the temperatures
    and for precipitation alike: the day's row is not the row of a day
    without data, and the balance takes the 999 mm off instead of adding
    nothing. *)
Lemma fill_value_kept_as_number :
  MapPage.parse Scenario.filled ["20250101"]
  = [ {| MapPage.key := "20250101";
         MapPage.tmx := Some (-999);
         MapPage.tmn := Some (-999);
         MapPage.prc := -999 |} ] /\
  MapPage.parse Scenario.blank ["20250101"]
  = [ {| MapPage.key := "20250101";
         MapPage.tmx := None;
         MapPage.tmn := None;
         MapPage.prc := 0 |} ] /\
  MapPage.parse Scenario.filled ["20250101"]
  <> MapPage.parse Scenario.blank ["20250101"] /\
  MapPage.aw
    (MapPage.balanceDay (MapPage.kc "maize") Scenario.halfFull
       (JS.or_default (-999) 0) 0) == 0 /\
  MapPage.aw
    (MapPage.balanceDay (MapPage.kc "maize") Scenario.halfFull
       (JS.or_default 0 0) 0) == 75.
Proof.
  split; [ reflexivity | ]. split; [ reflexivity | ].
  split; [ discriminate | ].
  split; vm_compute; reflexivity.
Qed.

Lemma parse_keys parameter keys :
  map MapPage.key (MapPage.parse parameter keys) = keys.
Proof.
  unfold MapPage.parse. rewrite map_map. cbn. apply map_id.
Qed.

(** C8, as the code has it: a date key with no entry (or a parameter that
    is missing altogether) gives no data for a temperature and 0 for
    precipitation, and a day without one of its temperatures contributes
    ETo = 0; a value that is present is kept as it is, the fill value too:
    it is the day's temperature or precipitation, and with both temperatures
    present ETo is the Hargreaves figure. *)
Theorem parse_absent_or_present (sqrt : Q -> Q) (computeRa : Q -> Z -> Q)
    (doyOfKey : string -> Z) (lat : Q) (parameter : MapPage.ParameterObj)
    (k : string) (r : MapPage.Row)
    (Hr : MapPage.parse parameter [k] = [r]) :
  let tmaxObj := default ∅ (MapPage.T2M_MAX parameter) in
  let tminObj := default ∅ (MapPage.T2M_MIN parameter) in
  let precObj := default ∅ (MapPage.PRECTOT parameter) in
  let eto := MapPage.etoOf sqrt computeRa doyOfKey lat r in
  MapPage.key r = k /\
  (tmaxObj !! k = None -> MapPage.tmx r = None /\ eto = 0) /\
  (tminObj !! k = None -> MapPage.tmn r = None /\ eto = 0) /\
  (precObj !! k = None -> MapPage.prc r = 0) /\
  (forall v, tmaxObj !! k = Some v -> MapPage.tmx r = Some v) /\
  (forall v, tminObj !! k = Some v -> MapPage.tmn r = Some v) /\
  (forall v, precObj !! k = Some v -> MapPage.prc r = v) /\
  (forall tmax tmin,
     MapPage.tmx r = Some tmax -> MapPage.tmn r = Some tmin ->
     eto = MapPage.hargreavesETo sqrt tmin tmax (computeRa lat (doyOfKey k))) /\
  (forall ks,
     MapPage.parse parameter (k :: ks) = r :: MapPage.parse parameter ks).
Proof.
  intros tmaxObj tminObj precObj eto.
  unfold MapPage.parse in Hr. cbn [map] in Hr.
  injection Hr as <-. subst eto. unfold MapPage.etoOf.
  cbn [MapPage.key MapPage.tmx MapPage.tmn MapPage.prc].
  fold tmaxObj tminObj precObj.
  split; [ reflexivity | ].
  split; [ intros ->; split; reflexivity | ].
  split; [ intros ->; split; [ reflexivity | now destruct (tmaxObj !! k) ] | ].
  split; [ intros ->; reflexivity | ].
  split; [ intros v ->; reflexivity | ].
  split; [ intros v ->; reflexivity | ].
  split; [ intros v ->; reflexivity | ].
  split; [ intros tmax tmin -> ->; reflexivity | ].
  intros ks. reflexivity.
Qed.

Lemma parse_absent_or_present_witness :
  MapPage.etoOf (fun x => x) (fun _ _ => 1) (fun _ => 1%Z) 0
    {| MapPage.key := "20250101";
       MapPage.tmx := None;
       MapPage.tmn := None;
       MapPage.prc := 0 |}
  = 0.
Proof.
  destruct (parse_absent_or_present (fun x => x) (fun _ _ => 1)
              (fun _ => 1%Z) 0 Scenario.blank "20250101" _ eq_refl)
    as (_ & H & _).
  exact (proj2 (H eq_refl)).
Defined.

(** * Further facts *)

(** ** The ceiling of crop health *)

Lemma Clamp_monotone v v' lo hi :
  v <= v' -> Phaser.Clamp v lo hi <= Phaser.Clamp v' lo hi.
Proof.
  intros H. unfold Phaser.Clamp, JS.Math_max, JS.Math_min.
  case_cmp; lra.
Qed.

Lemma healthScore_range soil nitro pest :
  0 <= soil <= 100 -> 0 <= nitro <= 100 -> 0 <= pest <= 100 ->
  0 <= FarmScene.healthScore soil nitro pest <= 200 # 3.
Proof. intros Hs Hn Hp. unfold FarmScene.healthScore. split; qlra. Qed.

Lemma healthScore_monotone soil nitro pest soil' nitro' pest' :
  soil <= soil' -> nitro <= nitro' -> pest' <= pest ->
  FarmScene.healthScore soil nitro pest
  <= FarmScene.healthScore soil' nitro' pest'.
Proof. intros Hs Hn Hp. unfold FarmScene.healthScore. qlra. Qed.

(** After a call in progress crop health is the score itself, between 0
    and 200/3. *)
Lemma handleAction_health_ceiling a rnd s :
  FarmScene.complete s = false ->
  let s' := FarmScene.handleAction a rnd s in
  FarmScene.cropHealth s'
  == FarmScene.healthScore (FarmScene.soilMoisture s')
       (FarmScene.nitrogen s') (FarmScene.pests s') /\
  0 <= FarmScene.cropHealth s' <= 200 # 3.
Proof.
  intros H s'.
  destruct (handleAction_ranges a rnd s H) as (Hs & Hn & Hp & _).
  fold s' in Hs, Hn, Hp. unfold Step.within in *.
  pose proof (healthScore_range _ _ _ Hs Hn Hp) as Hr.
  pose proof (handleAction_cropHealth a rnd s H) as E.
  cbv zeta in E. fold s' in E. rewrite E.
  assert (Ein : Phaser.Clamp
                  (FarmScene.healthScore (FarmScene.soilMoisture s')
                     (FarmScene.nitrogen s') (FarmScene.pests s')) 0 100
                == FarmScene.healthScore (FarmScene.soilMoisture s')
                     (FarmScene.nitrogen s') (FarmScene.pests s')).
  { apply Clamp_inside. split; lra. }
  split; [ exact Ein | rewrite Ein; exact Hr ].
Qed.

(** X1: in a state in progress, whatever the action and the draws, the new
    crop health is at most 200/3: the division by 1.5 keeps it under the 70
    of the top tier.  So the clamp of crop health never acts, the call never
    credits 4 * marketPrice (it credits 2 * marketPrice above 40 and nothing
    otherwise), and the crop circle drawn from the new state is never
    green. *)
Theorem top_tier_out_of_reach (a : Action) (rnd : Draws) (s : FarmScene.t)
    (H : FarmScene.complete s = false) :
  let s' := FarmScene.handleAction a rnd s in
  FarmScene.cropHealth s' <= 200 # 3 /\
  FarmScene.cropHealth s'
  == FarmScene.healthScore (FarmScene.soilMoisture s')
       (FarmScene.nitrogen s') (FarmScene.pests s') /\
  FarmScene.money s'
  == FarmScene.money s - Step.cost a
     + (if JS.ltb 40 (FarmScene.cropHealth s')
        then 2 * FarmScene.marketPrice s else 0) /\
  snd (View.updateCropVisual s') <> 0x2ecc71%Z.
Proof.
  intros s'.
  destruct (handleAction_health_ceiling a rnd s H) as (E & _ & Hc).
  fold s' in E, Hc.
  split; [ exact Hc | ]. split; [ exact E | ].
  assert (H70 : JS.ltb 70 (FarmScene.cropHealth s') = false)
    by (apply ltb_ge; lra).
  split.
  - pose proof (handleAction_money a rnd s H) as Em.
    cbv zeta in Em. fold s' in Em. rewrite Em.
    unfold Step.revenue. rewrite H70. reflexivity.
  - unfold View.updateCropVisual. cbn [snd]. rewrite H70.
    destruct (JS.ltb 40 _); discriminate.
Qed.

Lemma top_tier_out_of_reach_witness :
  FarmScene.cropHealth
    (FarmScene.handleAction Fertilize Scenario.calm Scenario.start)
  <= 200 # 3.
Proof.
  exact (proj1 (top_tier_out_of_reach Fertilize Scenario.calm Scenario.start
                  eq_refl)).
Defined.

(** ** The shape of a session *)

Lemma index_in_range {A : Type} (l : list A) (i : Z) :
  (0 <= i < Z.of_nat (length l))%Z -> is_Some (JS.index l i).
Proof.
  intros H. unfold JS.index.
  destruct (i <? 0)%Z eqn:E; [ apply Z.ltb_lt in E; lia | ].
  apply lookup_lt_is_Some. lia.
Qed.

(** The page after [nextDay] in a state in progress: one more line in the
    log, and the summary on show if the season ends with it. *)
Lemma nextDay_page p :
  FarmScene.complete (scene p) = false ->
  let s' :=
    FarmScene.set_day (FarmScene.day (scene p) + 1)
      (FarmScene.set_actionsTakenToday [] (scene p)) in
  scene (nextDay p) = s' /\
  actionLog (nextDay p) = actionLog p ++ [Session.logLine (scene p)] /\
  showEndModal (nextDay p)
  = (if FarmScene.complete s' then true else showEndModal p) /\
  endSummary (nextDay p)
  = (if FarmScene.complete s' then Some (Step.summaryOf s')
     else endSummary p).
Proof.
  intros H s'. unfold nextDay. rewrite H. cbv zeta.
  change (FarmScene.set_day
            (FarmScene.day (FarmScene.set_actionsTakenToday [] (scene p)) + 1)
            (FarmScene.set_actionsTakenToday [] (scene p))) with s'.
  destruct (FarmScene.complete s'); repeat split; reflexivity.
Qed.

(** Once the season is complete no click changes the page. *)
Lemma click_complete p c :
  FarmScene.complete (scene p) = true -> click p c = p.
Proof.
  intros H. destruct c as [a rnd | ]; cbn [click].
  - unfold handleAction. rewrite handleAction_complete by exact H.
    now destruct p.
  - now apply nextDay_complete.
Qed.

Lemma shaped_mount data : Session.shaped data 0 (mount data).
Proof.
  unfold Session.shaped. cbn.
  repeat split; try reflexivity; try constructor; try lia; try discriminate;
    try (intros [? ?]; lia).
Qed.

Lemma shaped_complete data k p :
  Session.shaped data k p ->
  FarmScene.complete (scene p) = true <-> k = length (precip data).
Proof.
  intros (Hr & Hd & Hk & _). unfold FarmScene.complete.
  rewrite Hr, Hd. unfold rainPattern. rewrite length_map.
  rewrite Z.ltb_lt. lia.
Qed.

Lemma shaped_handleAction data k a rnd p :
  Session.shaped data k p -> Session.shaped data k (handleAction a rnd p).
Proof.
  intros (Hr & Hd & Hk & Hl & Hm & Hs). unfold Session.shaped.
  cbn [handleAction scene actionLog showEndModal endSummary].
  rewrite handleAction_rainPattern, handleAction_day. tauto.
Qed.

Lemma shaped_nextDay data k p :
  Session.shaped data k p ->
  Session.shaped data (Nat.min (S k) (length (precip data))) (nextDay p).
Proof.
  intros Sh.
  destruct (FarmScene.complete (scene p)) eqn:Hc.
  - rewrite nextDay_complete by exact Hc.
    apply (shaped_complete data k p Sh) in Hc.
    replace (Nat.min (S k) (length (precip data))) with k by lia. exact Sh.
  - assert (Hlt : (k < length (precip data))%nat).
    { pose proof Sh as (_ & _ & Hk & _).
      destruct (Nat.eq_dec k (length (precip data))) as [E | ]; [ | lia ].
      apply (shaped_complete data k p Sh) in E. congruence. }
    replace (Nat.min (S k) (length (precip data))) with (S k) by lia.
    destruct (nextDay_page p Hc) as (Es & El & Em & Ee).
    destruct Sh as (Hr & Hd & Hk & Hl & Hm & Hs).
    assert (Hc' : FarmScene.complete
                    (FarmScene.set_day (FarmScene.day (scene p) + 1)
                       (FarmScene.set_actionsTakenToday [] (scene p)))
                  = bool_decide (S k = length (precip data))).
    { unfold FarmScene.complete. cbn. rewrite Hr, Hd.
      unfold rainPattern. rewrite length_map.
      case_bool_decide as E.
      - apply Z.ltb_lt. lia.
      - apply Z.ltb_ge. lia. }
    rewrite Hc' in Em, Ee.
    unfold Session.shaped. rewrite Es, El, Em, Ee.
    cbn [FarmScene.rainPattern FarmScene.day FarmScene.set_day
         FarmScene.set_actionsTakenToday].
    split; [ exact Hr | ]. split; [ lia | ]. split; [ lia | ].
    split.
    { rewrite map_app, Hl. cbn [map Session.logLine logRain]. rewrite Hr, Hd.
      destruct (lookup_lt_is_Some_2 (rainPattern data) k) as [l El'].
      { unfold rainPattern. rewrite length_map. lia. }
      rewrite (take_S_r _ _ _ El'). unfold JS.index.
      replace (Z.of_nat (S k) - 1)%Z with (Z.of_nat k) by lia.
      destruct (Z.of_nat k <? 0)%Z eqn:E; [ apply Z.ltb_lt in E; lia | ].
      rewrite Nat2Z.id, El'. reflexivity. }
    case_bool_decide as E.
    + split; [ split; [ intros _; lia | reflexivity ] | ].
      split; intros; discriminate.
    + split; [ | exact Hs ].
      rewrite Hm. split; intros [? ?]; lia.
Qed.

Lemma shaped_play data cs : forall k p,
  Session.shaped data k p ->
  Session.shaped data
    (Nat.min (k + Step.nextDays cs) (length (precip data))) (play p cs).
Proof.
  induction cs as [ | c cs IH]; intros k p Sh.
  - cbn. destruct Sh as (? & ? & Hk & ?).
    replace (Nat.min (k + 0) (length (precip data))) with k by lia.
    unfold Session.shaped. tauto.
  - change (play p (c :: cs)) with (play (click p c) cs).
    destruct c as [a rnd | ].
    + rewrite nextDays_action. apply IH. cbn [click].
      now apply shaped_handleAction.
    + rewrite nextDays_next. cbn [click].
      pose proof (IH _ _ (shaped_nextDay data k p Sh)) as Sh'.
      replace (Nat.min (k + S (Step.nextDays cs)) (length (precip data)))
        with (Nat.min (Nat.min (S k) (length (precip data))
                       + Step.nextDays cs) (length (precip data)))
        by lia.
      exact Sh'.
Qed.

(** X2: after any session from the start of a season, the day counter is
    1 plus the number of clicks on Next Day, capped at the season's length
    plus 1; the action log has one line per day that is over, in the order
    of the days, the line of the i-th day carrying the label of the i-th
    precipitation value; and the rain pattern is the classified
    precipitation series.  (The day number printed in a line is read from
    [this.day] when React runs the updater, and is not part of the
    statement.) *)
Theorem session_days_and_log (data : WeatherData) (cs : list Click) :
  let p := play (mount data) cs in
  let k := Nat.min (Step.nextDays cs) (length (precip data)) in
  FarmScene.day (scene p) = Z.of_nat (S k) /\
  FarmScene.rainPattern (scene p) = map rainLevel (precip data) /\
  length (actionLog p) = k /\
  map logRain (actionLog p) = map rainLevel (take k (precip data)).
Proof.
  intros p k.
  destruct (shaped_play data cs 0 (mount data) (shaped_mount data))
    as (Hr & Hd & _ & Hl & _).
  cbn [Nat.add] in *. fold p k in Hr, Hd, Hl.
  assert (Hl' : map logRain (actionLog p)
                = map rainLevel (take k (precip data))).
  { rewrite Hl. unfold rainPattern. symmetry. apply fmap_take. }
  split; [ exact Hd | ]. split; [ exact Hr | ]. split; [ | exact Hl' ].
  apply (f_equal (@length _)) in Hl'. rewrite !length_map in Hl'.
  rewrite Hl', length_take. subst k. lia.
Qed.

(** X3: the end-of-season window is on show exactly when a season of at
    least one day is complete, and the summary is set exactly when the
    window is on show; with an empty precipitation series the season is
    complete from the start, every click does nothing, and no summary is
    ever shown. *)
Theorem modal_iff_complete (data : WeatherData) (cs : list Click) :
  let p := play (mount data) cs in
  (showEndModal p = true <->
   FarmScene.complete (scene p) = true /\ (1 <= length (precip data))%nat) /\
  (endSummary p = None <-> showEndModal p = false) /\
  (precip data = [] -> p = mount data).
Proof.
  intros p.
  pose proof (shaped_play data cs 0 (mount data) (shaped_mount data)) as Sh.
  cbn [Nat.add] in Sh. fold p in Sh.
  pose proof (shaped_complete data _ p Sh) as Hc.
  destruct Sh as (_ & _ & _ & _ & Hm & Hs).
  split; [ rewrite Hm, Hc; tauto | ]. split; [ exact Hs | ].
  intros E. subst p. clear Hc Hm Hs.
  assert (H0 : FarmScene.complete (scene (mount data)) = true).
  { unfold FarmScene.complete. cbn. unfold rainPattern. now rewrite E. }
  generalize dependent (mount data). clear E.
  induction cs as [ | c cs IH]; intros p H0; [ reflexivity | ].
  change (play p (c :: cs)) with (play (click p c) cs).
  rewrite (click_complete p c H0). now apply IH.
Qed.

(** X4: on every page of a session on which the season is in progress, the
    day's precipitation exists, so neither fallback label is used: the rain
    [handleAction] applies and the rain [nextDay] writes to the log are the
    same label, that of [data.precip[day - 1]]. *)
Theorem rain_of_the_day (data : WeatherData) (cs : list Click)
    (H : FarmScene.complete (scene (play (mount data) cs)) = false) :
  let s := scene (play (mount data) cs) in
  exists mm,
    JS.index (precip data) (FarmScene.day s - 1) = Some mm /\
    Step.rainToday s = rainLevel mm /\
    logRain (Session.logLine s) = rainLevel mm.
Proof.
  intros s.
  pose proof (shaped_play data cs 0 (mount data) (shaped_mount data)) as Sh.
  cbn [Nat.add] in Sh.
  pose proof (shaped_complete data _ _ Sh) as Hc.
  destruct Sh as (Hr & Hd & Hk & _). fold s in Hr, Hd, H, Hc.
  assert (Hlt : (0 <= FarmScene.day s - 1 < Z.of_nat (length (precip data)))%Z).
  { destruct (Nat.eq_dec
                (Nat.min (Step.nextDays cs) (length (precip data)))
                (length (precip data))) as [E | ]; [ | lia ].
    apply Hc in E. congruence. }
  destruct (index_in_range (precip data) _ Hlt) as [mm Em].
  exists mm. split; [ exact Em | ].
  assert (El : JS.index (FarmScene.rainPattern s) (FarmScene.day s - 1)
               = Some (rainLevel mm)).
  { rewrite Hr. unfold JS.index, rainPattern in *.
    destruct (FarmScene.day s - 1 <? 0)%Z; [ discriminate | ].
    rewrite list_lookup_fmap, Em. reflexivity. }
  unfold Step.rainToday, Session.logLine. cbn [logRain].
  rewrite El. split; reflexivity.
Qed.

Lemma rain_of_the_day_witness :
  Step.rainToday (scene (play (mount Scenario.soaked) [ClickNextDay]))
  = rainLevel 5.
Proof.
  destruct (rain_of_the_day Scenario.soaked [ClickNextDay] eq_refl)
    as (mm & Em & Er & _).
  injection Em as <-. exact Er.
Defined.

(** A run of action clicks. *)
Lemma play_actions (acts : list (Action * Draws)) : forall p,
  FarmScene.complete (scene p) = false ->
  let p' := play p (map (fun ar => ClickAction ar.1 ar.2) acts) in
  FarmScene.complete (scene p') = false /\
  FarmScene.day (scene p') = FarmScene.day (scene p) /\
  FarmScene.rainPattern (scene p') = FarmScene.rainPattern (scene p) /\
  FarmScene.actionsTakenToday (scene p')
  = FarmScene.actionsTakenToday (scene p) ++ map fst acts /\
  actionLog p' = actionLog p.
Proof.
  induction acts as [ | [a rnd] acts IH]; intros p H.
  - cbn. rewrite app_nil_r. auto.
  - cbn [map]. cbv zeta.
    change (play p (ClickAction (a, rnd).1 (a, rnd).2
                    :: map (fun ar => ClickAction ar.1 ar.2) acts))
      with (play (handleAction a rnd p)
              (map (fun ar => ClickAction ar.1 ar.2) acts)).
    assert (H' : FarmScene.complete (scene (handleAction a rnd p)) = false).
    { cbn [handleAction scene]. now rewrite handleAction_still. }
    destruct (IH (handleAction a rnd p) H') as (Hc & Hd & Hr & Ha & Hl).
    split; [ exact Hc | ].
    split; [ rewrite Hd; apply handleAction_day | ].
    split; [ rewrite Hr; apply handleAction_rainPattern | ].
    split; [ | exact Hl ].
    rewrite Ha. cbn [handleAction scene].
    rewrite (handleAction_actions a rnd (scene p) H).
    now rewrite <- app_assoc.
Qed.

(** X5: in a state in progress, any run of action clicks followed by a
    click on Next Day adds one line to the action log, which lists the
    actions already taken that day followed by the clicked ones in their
    order, and the day's rain; so every click on an action button shows in
    the log, however many there are in a day.  (The day number printed in
    the line is read from [this.day] when React runs the updater, and is
    not part of the statement.) *)
Theorem log_lists_the_day (acts : list (Action * Draws)) (p : Page)
    (H : FarmScene.complete (scene p) = false) :
  actionLog
    (play p (map (fun ar => ClickAction ar.1 ar.2) acts ++ [ClickNextDay]))
  = actionLog p ++
      [ {| logActions :=
             FarmScene.actionsTakenToday (scene p) ++ map fst acts;
           logRain := logRain (Session.logLine (scene p)) |} ].
Proof.
  unfold play. rewrite fold_left_app. cbn [fold_left click].
  destruct (play_actions acts p H) as (Hc & Hd & Hr & Ha & Hl).
  unfold play in Hc, Hd, Hr, Ha, Hl.
  destruct (nextDay_page _ Hc) as (_ & El & _).
  rewrite El, Hl. unfold Session.logLine. rewrite Hd, Hr, Ha. reflexivity.
Qed.

Lemma log_lists_the_day_witness :
  length
    (actionLog
       (play (mount Scenario.soaked)
          (map (fun ar => ClickAction ar.1 ar.2)
             [(Irrigate, Scenario.calm); (Wait, Scenario.calm)]
           ++ [ClickNextDay])))
  = 1%nat.
Proof.
  rewrite (log_lists_the_day
             [(Irrigate, Scenario.calm); (Wait, Scenario.calm)]
             (mount Scenario.soaked) eq_refl).
  reflexivity.
Defined.

(** ** Money *)

Lemma cost_range a : 0 <= Step.cost a <= 3.
Proof. destruct a; cbn; split; discriminate. Qed.

(** One call on a page of a session moves money by 3 at most. *)
Lemma money_step a rnd s :
  Step.bounded s -> FarmScene.complete s = false ->
  let s' := FarmScene.handleAction a rnd s in
  FarmScene.money s - Step.cost a <= FarmScene.money s' /\
  FarmScene.money s' <= FarmScene.money s - Step.cost a + 3.
Proof.
  intros B H s'.
  destruct (handleAction_health_ceiling a rnd s H) as (_ & _ & Hc).
  fold s' in Hc.
  assert (H70 : JS.ltb 70 (FarmScene.cropHealth s') = false)
    by (apply ltb_ge; lra).
  pose proof (handleAction_money a rnd s H) as Em.
  cbv zeta in Em. fold s' in Em. rewrite Em.
  unfold Step.revenue. rewrite H70.
  destruct B as (_ & _ & _ & Hp & _). unfold Step.within in Hp.
  destruct (JS.ltb 40 (FarmScene.cropHealth s')); split; lra.
Qed.

(** X6: over any session from the start of a season, money stays within 3
    per click on an action button of its starting 20, either way: an action
    costs 3 at most and a call credits 2 * marketPrice <= 3 at most; clicks
    on Next Day leave money alone. *)
Theorem money_within_three_per_action (data : WeatherData)
    (cs : list Click) :
  let p := play (mount data) cs in
  let n := inject_Z (Z.of_nat (Session.actionClicks cs)) in
  20 - 3 * n <= FarmScene.money (scene p) <= 20 + 3 * n.
Proof.
  intros p n. subst p n.
  assert (G : forall cs p0,
             Step.bounded (scene p0) ->
             FarmScene.money (scene p0)
             - 3 * inject_Z (Z.of_nat (Session.actionClicks cs))
             <= FarmScene.money (scene (play p0 cs))
             <= FarmScene.money (scene p0)
                + 3 * inject_Z (Z.of_nat (Session.actionClicks cs))).
  { clear cs. induction cs as [ | c cs IH]; intros p0 B.
    - change (play p0 []) with p0.
      change (inject_Z (Z.of_nat (Session.actionClicks []))) with 0.
      split; lra.
    - change (play p0 (c :: cs)) with (play (click p0 c) cs).
      specialize (IH _ (bounded_click p0 c B)).
      destruct c as [a rnd | ].
      + change (Session.actionClicks (ClickAction a rnd :: cs))
          with (S (Session.actionClicks cs)).
        rewrite Nat2Z.inj_succ. unfold Z.succ. rewrite inject_Z_plus.
        change (inject_Z 1) with 1.
        destruct (FarmScene.complete (scene p0)) eqn:Hc.
        * rewrite (click_complete p0 _ Hc) in IH |- *. lra.
        * pose proof (money_step a rnd (scene p0) B Hc) as M.
          cbv zeta in M. pose proof (cost_range a).
          change (FarmScene.money (scene (click p0 (ClickAction a rnd))))
            with (FarmScene.money
                    (FarmScene.handleAction a rnd (scene p0))) in IH.
          lra.
      + change (Session.actionClicks (ClickNextDay :: cs))
          with (Session.actionClicks cs).
        cbn [click] in IH |- *.
        pose proof (nextDay_ledger p0) as E. unfold Step.ledger in E.
        injection E as _ _ _ _ E _ _. rewrite E in IH. exact IH. }
  apply (G cs (mount data)). apply bounded_init.
Qed.

(** ** Actions compared, and fields that only go one way *)

Lemma scouted_pests_le rnd pest :
  0 <= pest -> (0 <= pestReduction rnd)%Z ->
  Step.pestsAfterAction Scout rnd pest <= pest.
Proof.
  intros Hp Hr. rewrite Zle_Qle in Hr. change (inject_Z 0) with 0 in Hr.
  cbn [Step.pestsAfterAction].
  unfold Phaser.Clamp, JS.Math_max, JS.Math_min. case_cmp; lra.
Qed.

(** X7: from the same state in progress and with the same draws, an action
    never leaves the farm worse off than waiting: soil moisture and nitrogen
    are no lower, pests no higher and crop health no lower (for Scout, given
    a pest count and a drawn reduction that are not negative). *)
Theorem no_worse_than_waiting (a : Action) (rnd : Draws) (s : FarmScene.t)
    (H : FarmScene.complete s = false)
    (Hp : 0 <= FarmScene.pests s) (Hr : (0 <= pestReduction rnd)%Z) :
  let sa := FarmScene.handleAction a rnd s in
  let sw := FarmScene.handleAction Wait rnd s in
  FarmScene.soilMoisture sw <= FarmScene.soilMoisture sa /\
  FarmScene.nitrogen sw <= FarmScene.nitrogen sa /\
  FarmScene.pests sa <= FarmScene.pests sw /\
  FarmScene.cropHealth sw <= FarmScene.cropHealth sa.
Proof.
  intros sa sw.
  assert (Hs : FarmScene.soilMoisture sw <= FarmScene.soilMoisture sa).
  { subst sa sw. rewrite !handleAction_soil by exact H.
    apply Clamp_monotone. destruct a; cbn [Step.soilAfterAction]; lra. }
  assert (Hn : FarmScene.nitrogen sw <= FarmScene.nitrogen sa).
  { subst sa sw. rewrite !handleAction_nitrogen by exact H.
    apply Clamp_monotone. destruct a; lra. }
  assert (Hq : FarmScene.pests sa <= FarmScene.pests sw).
  { subst sa sw. rewrite !handleAction_pests by exact H.
    apply Clamp_monotone.
    assert (Step.pestsAfterAction a rnd (FarmScene.pests s)
            <= Step.pestsAfterAction Wait rnd (FarmScene.pests s)).
    { destruct a; try (cbn [Step.pestsAfterAction]; lra).
      now apply scouted_pests_le. }
    lra. }
  split; [ exact Hs | ]. split; [ exact Hn | ]. split; [ exact Hq | ].
  pose proof (handleAction_cropHealth a rnd s H) as Ea.
  pose proof (handleAction_cropHealth Wait rnd s H) as Ew.
  cbv zeta in Ea, Ew. fold sa in Ea. fold sw in Ew. rewrite Ea, Ew.
  apply Clamp_monotone, healthScore_monotone; assumption.
Qed.

Lemma no_worse_than_waiting_witness :
  FarmScene.cropHealth
    (FarmScene.handleAction Wait Scenario.calm Scenario.start)
  <= FarmScene.cropHealth
       (FarmScene.handleAction Scout Scenario.calm Scenario.start).
Proof.
  assert (Hp : 0 <= FarmScene.pests Scenario.start) by discriminate.
  assert (Hr : (0 <= pestReduction Scenario.calm)%Z) by discriminate.
  destruct (no_worse_than_waiting Scout Scenario.calm Scenario.start
              eq_refl Hp Hr) as (_ & _ & _ & E).
  exact E.
Defined.

(** X8: on every page of a session a call of [handleAction] never lowers
    nitrogen (nothing consumes it), and with a growth draw that is not
    negative it never lowers pests unless the action is Scout. *)
Theorem nitrogen_and_pests_ratchet (data : WeatherData) (cs : list Click)
    (a : Action) (rnd : Draws) :
  let s := scene (play (mount data) cs) in
  let s' := FarmScene.handleAction a rnd s in
  FarmScene.nitrogen s <= FarmScene.nitrogen s' /\
  (a <> Scout -> (0 <= pestGrowthDraw rnd)%Z ->
   FarmScene.pests s <= FarmScene.pests s').
Proof.
  intros s s'.
  pose proof (bounded_play cs (mount data) (bounded_init data)) as B.
  fold s in B. destruct B as (Bn & Bp & Bc & _). unfold Step.within in *.
  destruct (FarmScene.complete s) eqn:H.
  - subst s'. rewrite handleAction_complete by exact H.
    split; [ lra | intros; lra ].
  - split.
    + subst s'. rewrite (handleAction_nitrogen a rnd s H).
      rewrite <- (Clamp_inside (FarmScene.nitrogen s) 0 100) at 1
        by (split; lra).
      apply Clamp_monotone. destruct a; lra.
    + intros Ha Hg. rewrite Zle_Qle in Hg. change (inject_Z 0) with 0 in Hg.
      subst s'. rewrite (handleAction_pests a rnd s H).
      rewrite <- (Clamp_inside (FarmScene.pests s) 0 100) at 1
        by (split; lra).
      apply Clamp_monotone.
      assert (E : Step.pestsAfterAction a rnd (FarmScene.pests s)
                  = FarmScene.pests s)
        by (destruct a; try reflexivity; congruence).
      rewrite E. qlra.
Qed.

Lemma nitrogen_and_pests_ratchet_witness :
  FarmScene.pests (scene (play (mount Scenario.soaked) []))
  <= FarmScene.pests
       (FarmScene.handleAction Wait Scenario.calm
          (scene (play (mount Scenario.soaked) []))).
Proof.
  assert (Ha : Wait <> Scout) by discriminate.
  assert (Hg : (0 <= pestGrowthDraw Scenario.calm)%Z) by discriminate.
  exact (proj2 (nitrogen_and_pests_ratchet Scenario.soaked [] Wait
                  Scenario.calm) Ha Hg).
Defined.

(** ** The stage: chart and rain drops *)

Lemma stage_event data st e :
  View.page (View.event data st e) = click (View.page st) (View.toClick e).
Proof.
  destruct e as [a rnd pos | ]; cbn [View.event View.toClick click].
  - unfold View.handleAction.
    destruct (FarmScene.complete (scene (View.page st))) eqn:H.
    + symmetry. apply (click_complete _ (ClickAction a rnd) H).
    + reflexivity.
  - unfold View.nextDay.
    destruct (FarmScene.complete (scene (View.page st))) eqn:H.
    + symmetry. now apply nextDay_complete.
    + reflexivity.
Qed.

Lemma stage_run data es : forall st,
  View.page (View.run data st es)
  = play (View.page st) (map View.toClick es).
Proof.
  induction es as [ | e es IH]; intros st; [ reflexivity | ].
  change (View.run data st (e :: es))
    with (View.run data (View.event data st e) es).
  rewrite IH, stage_event. reflexivity.
Qed.

(** What the chart holds when [k] days are over. *)
Lemma chart_run data es : forall k st,
  Session.shaped data k (View.page st) ->
  View.labels (View.chart st) = 1%Z :: map Z.of_nat (seq 1 k) ->
  length (View.soilData (View.chart st)) = S k ->
  View.precipData (View.chart st)
  = JS.opt_or_default (head (precip data)) 0
    :: map (fun mm => JS.or_default mm 0) (take k (precip data)) ->
  let k' :=
    Nat.min (k + Step.nextDays (map View.toClick es))
      (length (precip data)) in
  let st' := View.run data st es in
  View.labels (View.chart st') = 1%Z :: map Z.of_nat (seq 1 k') /\
  length (View.soilData (View.chart st')) = S k' /\
  View.precipData (View.chart st')
  = JS.opt_or_default (head (precip data)) 0
    :: map (fun mm => JS.or_default mm 0) (take k' (precip data)).
Proof.
  induction es as [ | e es IH]; intros k st Sh Hl Hs Hp.
  - cbn. pose proof Sh as (_ & _ & Hk & _).
    replace (Nat.min (k + 0) (length (precip data))) with k by lia. auto.
  - cbv zeta.
    change (View.run data st (e :: es))
      with (View.run data (View.event data st e) es).
    destruct e as [a rnd pos' | ].
    + change (Step.nextDays (map View.toClick (View.Act a rnd pos' :: es)))
        with (Step.nextDays (map View.toClick es)).
      assert (Ec : View.chart (View.event data st (View.Act a rnd pos'))
                   = View.chart st).
      { cbn [View.event]. unfold View.handleAction.
        destruct (FarmScene.complete _); reflexivity. }
      apply IH; rewrite ?Ec; try assumption.
      rewrite stage_event. now apply shaped_handleAction.
    + change (Step.nextDays (map View.toClick (View.Next :: es)))
        with (S (Step.nextDays (map View.toClick es))).
      pose proof (shaped_nextDay data k _ Sh) as Sh'.
      destruct (FarmScene.complete (scene (View.page st))) eqn:Hc.
      * assert (Ek : k = length (precip data))
          by (apply (shaped_complete data k _ Sh); exact Hc).
        assert (Es : View.event data st View.Next = st).
        { cbn [View.event]. unfold View.nextDay. now rewrite Hc. }
        rewrite Es.
        replace (Nat.min (k + S (Step.nextDays (map View.toClick es)))
                   (length (precip data)))
          with (Nat.min (k + Step.nextDays (map View.toClick es))
                  (length (precip data))) by lia.
        now apply IH.
      * assert (Hlt : (k < length (precip data))%nat).
        { pose proof Sh as (_ & _ & Hk & _).
          destruct (Nat.eq_dec k (length (precip data))) as [E | ]; [ | lia ].
          apply (shaped_complete data k _ Sh) in E. congruence. }
        replace (Nat.min (S k) (length (precip data))) with (S k) in Sh'
          by lia.
        replace (Nat.min (k + S (Step.nextDays (map View.toClick es)))
                   (length (precip data)))
          with (Nat.min (S k + Step.nextDays (map View.toClick es))
                  (length (precip data))) by lia.
        pose proof Sh as (_ & Hd & _).
        assert (Est : View.event data st View.Next
                      = {| View.page := nextDay (View.page st);
                           View.rainDrops := View.rainDrops st;
                           View.chart :=
                             View.updateChart data (scene (View.page st))
                               (View.chart st) |}).
        { cbn [View.event]. unfold View.nextDay. now rewrite Hc. }
        rewrite Est.
        destruct (lookup_lt_is_Some_2 (precip data) k Hlt) as [mm Emm].
        apply IH; cbn [View.page View.chart View.updateChart View.labels
                       View.soilData View.precipData].
        -- exact Sh'.
        -- rewrite Hl, Hd, seq_S, map_app. reflexivity.
        -- rewrite length_app, Hs. cbn. lia.
        -- rewrite Hp, Hd.
           replace (Z.of_nat (S k) - 1)%Z with (Z.of_nat k) by lia.
           unfold JS.index.
           replace (Z.of_nat k <? 0)%Z with false
             by (symmetry; apply Z.ltb_ge; lia).
           rewrite Nat2Z.id, Emm.
           rewrite (take_S_r _ _ _ Emm), map_app. reflexivity.
Qed.

(** X9: drawing never feeds back into the simulation: after any session on
    the stage the page is the one the same clicks give without the stage.
    The chart gets its first point when it is made and one more at each
    click on Next Day before the day counter moves, so with [k] days over
    its labels are 1, 1, 2, ..., k (day 1 twice), and both datasets have
    k + 1 values, the precipitation one being that of day 1 followed by
    those of days 1 to k. *)
Theorem stage_page_and_chart (data : WeatherData) (pos : nat -> Z * Z)
    (es : list View.Event) :
  let st := View.run data (View.create data pos) es in
  let k :=
    Nat.min (Step.nextDays (map View.toClick es)) (length (precip data)) in
  View.page st = play (mount data) (map View.toClick es) /\
  View.labels (View.chart st) = 1%Z :: map Z.of_nat (seq 1 k) /\
  length (View.soilData (View.chart st)) = S k /\
  View.precipData (View.chart st)
  = JS.opt_or_default (head (precip data)) 0
    :: map (fun mm => JS.or_default mm 0) (take k (precip data)).
Proof.
  intros st k. split; [ apply stage_run | ].
  apply (chart_run data es 0 (View.create data pos)).
  - apply shaped_mount.
  - reflexivity.
  - reflexivity.
  - reflexivity.
Qed.

Lemma createRain_length s pos :
  length (View.createRain s pos) = View.dropCount (Step.rainToday s).
Proof. unfold View.createRain. now rewrite length_map, length_seq. Qed.

Lemma createRain_inScene WIDTH HEIGHT s pos :
  (0 <= HEIGHT)%Z -> (forall i, View.drawn WIDTH (pos i)) ->
  Forall (View.inScene WIDTH HEIGHT) (View.createRain s pos).
Proof.
  intros HH Hpos. unfold View.createRain. apply Forall_map, Forall_forall.
  intros i _. destruct (Hpos i) as [Hx Hy].
  unfold View.inScene. cbn. lia.
Qed.

Lemma fall_inScene WIDTH HEIGHT xy drop :
  (0 <= HEIGHT)%Z -> View.drawn WIDTH xy -> View.inScene WIDTH HEIGHT drop ->
  View.inScene WIDTH HEIGHT (View.fall HEIGHT xy drop).
Proof.
  intros HH [Hx Hy] [Dx Dy]. unfold View.fall, View.inScene.
  destruct (HEIGHT <? View.y drop + 4)%Z eqn:E; cbn.
  - lia.
  - apply Z.ltb_ge in E. lia.
Qed.

Lemma updateRain_inScene WIDTH HEIGHT redraw drops :
  (0 <= HEIGHT)%Z -> (forall i, View.drawn WIDTH (redraw i)) ->
  Forall (View.inScene WIDTH HEIGHT) drops ->
  length (View.updateRain HEIGHT redraw drops) = length drops /\
  Forall (View.inScene WIDTH HEIGHT) (View.updateRain HEIGHT redraw drops).
Proof.
  intros HH Hre Hd. unfold View.updateRain.
  split; [ apply length_imap | ].
  apply Forall_lookup. intros i d Hi.
  rewrite list_lookup_imap in Hi.
  destruct (drops !! i) as [d0 | ] eqn:E; [ | discriminate ].
  cbn in Hi. injection Hi as <-.
  apply fall_inScene; [ exact HH | apply Hre | ].
  eapply Forall_lookup_1; eassumption.
Qed.

(** X10: [createRain] makes 0, 10, 30 or 60 drops for a day of no, low,
    medium or high rain, and with positions drawn in their ranges and a
    scene of height at least 0, after any number of frames of [updateRain]
    there are as many drops, each within the width of the scene and between
    50 above its top and its bottom. *)
Theorem rain_drops_stay_in_scene (WIDTH HEIGHT : Z) (s : FarmScene.t)
    (pos : nat -> Z * Z) (frames : list (nat -> Z * Z))
    (HH : (0 <= HEIGHT)%Z)
    (Hpos : forall i, View.drawn WIDTH (pos i))
    (Hframes : Forall (fun redraw => forall i, View.drawn WIDTH (redraw i))
                 frames) :
  let drops :=
    fold_left (fun d redraw => View.updateRain HEIGHT redraw d) frames
      (View.createRain s pos) in
  length drops = View.dropCount (Step.rainToday s) /\
  Forall (View.inScene WIDTH HEIGHT) drops.
Proof.
  intros drops. subst drops.
  rewrite <- (createRain_length s pos).
  pose proof (createRain_inScene WIDTH HEIGHT s pos HH Hpos) as H0.
  generalize dependent (View.createRain s pos).
  induction Hframes as [ | redraw frames Hre _ IH]; intros d0 H0.
  - cbn. auto.
  - cbn [fold_left].
    destruct (updateRain_inScene WIDTH HEIGHT redraw d0 HH Hre H0) as [L F].
    destruct (IH _ F) as [L' F'].
    split; [ congruence | exact F' ].
Qed.

Lemma rain_drops_stay_in_scene_witness :
  length
    (fold_left (fun d redraw => View.updateRain 600 redraw d)
       [fun _ => (0, 0)%Z]
       (View.createRain Scenario.start (fun _ => (0, 0)%Z)))
  = 30%nat.
Proof.
  assert (HH : (0 <= 600)%Z) by discriminate.
  assert (Hpos : forall i : nat, View.drawn 960 ((fun _ => (0, 0)%Z) i)).
  { intros i. unfold View.drawn. cbn. lia. }
  assert (Hframes :
            Forall (fun redraw : nat -> Z * Z =>
                      forall i, View.drawn 960 (redraw i))
              [fun _ => (0, 0)%Z]).
  { constructor; [ exact Hpos | constructor ]. }
  exact (proj1 (rain_drops_stay_in_scene 960 600 Scenario.start
                  (fun _ => (0, 0)%Z) [fun _ => (0, 0)%Z] HH Hpos Hframes)).
Defined.

(** ** The crop circle *)

Lemma health_at_most_70 cs : forall p,
  0 <= FarmScene.cropHealth (scene p) <= 70 ->
  0 <= FarmScene.cropHealth (scene (play p cs)) <= 70.
Proof.
  induction cs as [ | c cs IH]; intros p Hp; [ exact Hp | ].
  change (play p (c :: cs)) with (play (click p c) cs).
  apply IH. destruct c as [a rnd | ]; cbn [click].
  - cbn [handleAction scene].
    destruct (FarmScene.complete (scene p)) eqn:H.
    + now rewrite handleAction_complete.
    + destruct (handleAction_health_ceiling a rnd (scene p) H) as (_ & Hc).
      cbv zeta in Hc. lra.
  - now rewrite nextDay_cropHealth.
Qed.

(** X11: on every page of a session crop health is between 0 and 70, so
    the crop circle is never green: it is yellow when crop health is above
    40 and red otherwise, and its radius runs from 20 to 48 only. *)
Theorem crop_circle_never_green (data : WeatherData) (cs : list Click) :
  let s := scene (play (mount data) cs) in
  let circle := View.updateCropVisual s in
  0 <= FarmScene.cropHealth s <= 70 /\
  20 <= fst circle <= 48 /\
  snd circle <> 0x2ecc71%Z /\
  (snd circle = 0xf1c40f%Z <-> 40 < FarmScene.cropHealth s) /\
  (snd circle = 0xe74c3c%Z <-> FarmScene.cropHealth s <= 40).
Proof.
  intros s circle.
  assert (Hc : 0 <= FarmScene.cropHealth s <= 70).
  { apply health_at_most_70. cbn. split; discriminate. }
  split; [ exact Hc | ].
  subst circle. unfold View.updateCropVisual, View.Linear. cbn [fst snd].
  split; [ split; qlra | ].
  assert (H70 : JS.ltb 70 (FarmScene.cropHealth s) = false)
    by (apply ltb_ge; lra).
  rewrite H70.
  case_ltb 40 (FarmScene.cropHealth s).
  - split; [ discriminate | ].
    split; split; intros; try reflexivity; try assumption;
      try discriminate; lra.
  - split; [ discriminate | ].
    split; split; intros; try reflexivity; try assumption;
      try discriminate; lra.
Qed.

(** ** More on the soil-water balance *)

Lemma or_default_zero v : JS.or_default v 0 == v.
Proof. unfold JS.or_default. case_eqb v 0; [ now symmetry | reflexivity ]. Qed.

(** X12: for a balance within [0, fc_mm], precipitation that is not
    negative and a crop evapotranspiration (ETo * kc) that is not negative,
    one day of the loop gives min(fc_mm, max(0, aw + pr - ETo * kc)): the
    crop takes what it asks for or all there is, and the test for a negative
    balance never acts. *)
Theorem balance_day_closed_form (kc pr eto : Q) (b : MapPage.Balance)
    (Hb : 0 <= MapPage.aw b <= MapPage.fc_mm) (Hp : 0 <= pr)
    (He : 0 <= eto * kc) :
  MapPage.aw (MapPage.balanceDay kc b pr eto)
  == JS.Math_min MapPage.fc_mm
       (JS.Math_max 0 (MapPage.aw b + pr - eto * kc)) /\
  0 <= MapPage.aw b + pr
       - JS.Math_min (MapPage.aw b + pr) (eto * kc).
Proof.
  rewrite balanceDay_aw.
  unfold Phaser.Clamp, JS.Math_max, JS.Math_min, MapPage.fc_mm in *.
  generalize dependent (eto * kc). intros e He.
  split; case_cmp; lra.
Qed.

Lemma balance_day_closed_form_witness :
  MapPage.aw (MapPage.balanceDay 1 Scenario.halfFull 10 4)
  == JS.Math_min MapPage.fc_mm
       (JS.Math_max 0 (MapPage.aw Scenario.halfFull + 10 - 4 * 1)).
Proof.
  assert (Hb : 0 <= MapPage.aw Scenario.halfFull <= MapPage.fc_mm)
    by (split; discriminate).
  assert (Hp : 0 <= 10) by discriminate.
  assert (He : 0 <= 4 * 1) by discriminate.
  exact (proj1 (balance_day_closed_form 1 10 4 Scenario.halfFull Hb Hp He)).
Defined.

(** X13: one day of the loop is monotone: with no less water to start
    with (balance plus precipitation) and no more crop evapotranspiration,
    the balance after the day is no lower. *)
Theorem balance_day_monotone (kc kc' pr pr' eto eto' : Q)
    (b b' : MapPage.Balance)
    (Hw : MapPage.aw b + pr <= MapPage.aw b' + pr')
    (He : eto' * kc' <= eto * kc) :
  MapPage.aw (MapPage.balanceDay kc b pr eto)
  <= MapPage.aw (MapPage.balanceDay kc' b' pr' eto').
Proof.
  rewrite !balanceDay_aw.
  generalize dependent (eto * kc). generalize dependent (eto' * kc').
  generalize dependent (MapPage.aw b + pr).
  generalize dependent (MapPage.aw b' + pr').
  intros w' w Hw e' e He.
  apply Clamp_monotone. unfold JS.Math_min. case_cmp; lra.
Qed.

Lemma balance_day_monotone_witness :
  MapPage.aw (MapPage.balanceDay 1 Scenario.halfFull 0 4)
  <= MapPage.aw (MapPage.balanceDay 1 Scenario.halfFull 10 4).
Proof.
  assert (Hw : MapPage.aw Scenario.halfFull + 0
               <= MapPage.aw Scenario.halfFull + 10) by discriminate.
  assert (He : 4 * 1 <= 4 * 1) by discriminate.
  exact (balance_day_monotone 1 1 0 10 4 4 Scenario.halfFull
           Scenario.halfFull Hw He).
Defined.

Lemma toFixed_compat k x y : x == y -> JS.toFixed k x == JS.toFixed k y.
Proof.
  intros E. unfold JS.toFixed.
  assert (El : JS.ltb x 0 = JS.ltb y 0).
  { case_ltb x 0; case_ltb y 0; try reflexivity; exfalso; lra. }
  assert (Ef : Qfloor (Qabs x * inject_Z (10 ^ Z.of_nat k) + (1 # 2))
               = Qfloor (Qabs y * inject_Z (10 ^ Z.of_nat k) + (1 # 2))).
  { apply Qfloor_comp. now rewrite E. }
  cbv zeta. rewrite El, Ef. reflexivity.
Qed.

(** A day with neither rain nor a pair of temperatures leaves the balance
    where it was. *)
Lemma balanceStep_no_data sqrt computeRa doyOfKey lat kc b r :
  0 <= MapPage.aw b <= MapPage.fc_mm ->
  MapPage.prc r == 0 ->
  MapPage.tmx r = None \/ MapPage.tmn r = None ->
  MapPage.aw (MapPage.balanceStep sqrt computeRa doyOfKey lat kc b r)
  == MapPage.aw b.
Proof.
  intros Hb Hp Ht. unfold MapPage.balanceStep.
  assert (Ee : MapPage.etoOf sqrt computeRa doyOfKey lat r = 0).
  { unfold MapPage.etoOf. destruct Ht as [-> | ->];
      [ reflexivity | now destruct (MapPage.tmx r) ]. }
  rewrite Ee, balanceDay_aw.
  pose proof (or_default_zero (MapPage.prc r)) as Eo.
  unfold Phaser.Clamp, JS.Math_max, JS.Math_min, MapPage.fc_mm in *.
  case_cmp; lra.
Qed.

(** X14: when the answer has, for each date key, no precipitation and not
    both temperatures, the balance never moves from half the field
    capacity: every soil-moisture value emitted is 75 and every
    evapotranspiration value 0, one of each per date key. *)
Theorem no_data_flat_series (sqrt : Q -> Q) (computeRa : Q -> Z -> Q)
    (doyOfKey : string -> Z) (lat : Q) (crop : string)
    (parameter : MapPage.ParameterObj) (keys : list string)
    (H : Forall
           (fun k =>
              default ∅ (MapPage.PRECTOT parameter) !! k = None /\
              (default ∅ (MapPage.T2M_MAX parameter) !! k = None \/
               default ∅ (MapPage.T2M_MIN parameter) !! k = None))
           keys) :
  let b :=
    MapPage.balance sqrt computeRa doyOfKey lat crop
      (MapPage.parse parameter keys) in
  MapPage.aw b == 75 /\
  Forall (fun v => v == 75) (MapPage.soil_series b) /\
  Forall (fun v => v == 0) (MapPage.eto_series b) /\
  length (MapPage.soil_series b) = length keys /\
  length (MapPage.eto_series b) = length keys.
Proof.
  intros b. subst b. unfold MapPage.balance.
  assert (G : forall rows b0,
             Forall (fun r => MapPage.prc r == 0 /\
                              (MapPage.tmx r = None \/ MapPage.tmn r = None))
               rows ->
             MapPage.aw b0 == 75 ->
             Forall (fun v => v == 75) (MapPage.soil_series b0) ->
             Forall (fun v => v == 0) (MapPage.eto_series b0) ->
             length (MapPage.soil_series b0) = length (MapPage.eto_series b0) ->
             let b1 :=
               fold_left
                 (MapPage.balanceStep sqrt computeRa doyOfKey lat
                    (MapPage.kc crop)) rows b0 in
             MapPage.aw b1 == 75 /\
             Forall (fun v => v == 75) (MapPage.soil_series b1) /\
             Forall (fun v => v == 0) (MapPage.eto_series b1) /\
             length (MapPage.soil_series b1)
             = (length (MapPage.soil_series b0) + length rows)%nat /\
             length (MapPage.eto_series b1)
             = (length (MapPage.soil_series b0) + length rows)%nat).
  { induction rows as [ | r rows IH]; intros b0 Hr Ha Hs He Hlen.
    - cbn. repeat split; try assumption; lia.
    - cbn [fold_left]. cbv zeta.
      apply Forall_cons in Hr. destruct Hr as [[Hp Ht] Hr].
      set (b1 := MapPage.balanceStep sqrt computeRa doyOfKey lat
                   (MapPage.kc crop) b0 r).
      assert (Ha1 : MapPage.aw b1 == 75).
      { subst b1. rewrite balanceStep_no_data; try assumption.
        rewrite Ha. split; discriminate. }
      assert (Ee : MapPage.etoOf sqrt computeRa doyOfKey lat r = 0).
      { unfold MapPage.etoOf. destruct Ht as [-> | ->];
          [ reflexivity | now destruct (MapPage.tmx r) ]. }
      assert (Es : MapPage.soil_series b1
                   = MapPage.soil_series b0 ++ [JS.toFixed 2 (MapPage.aw b1)])
        by reflexivity.
      assert (Eo : MapPage.eto_series b1
                   = MapPage.eto_series b0 ++ [JS.toFixed 3 0]).
      { subst b1. unfold MapPage.balanceStep. rewrite Ee. reflexivity. }
      destruct (IH b1 Hr Ha1) as (Ra & Rs & Re & Rl & Rl').
      + rewrite Es. apply Forall_app. split; [ exact Hs | ].
        constructor; [ | constructor ].
        rewrite (toFixed_compat 2 _ 75 Ha1). reflexivity.
      + rewrite Eo. apply Forall_app. split; [ exact He | ].
        constructor; [ reflexivity | constructor ].
      + rewrite Es, Eo, !length_app. cbn. lia.
      + split; [ exact Ra | ]. split; [ exact Rs | ]. split; [ exact Re | ].
        rewrite Rl, Rl', Es, length_app. cbn. lia. }
  destruct (G (MapPage.parse parameter keys)
              {| MapPage.aw := MapPage.fc_mm * 0.5;
                 MapPage.soil_series := [];
                 MapPage.eto_series := [] |})
    as (Ra & Rs & Re & Rl & Rl').
  - unfold MapPage.parse. apply Forall_map.
    eapply Forall_impl; [ exact H | ].
    intros k [Hp Ht]. cbn. rewrite Hp. split; [ reflexivity | exact Ht ].
  - reflexivity.
  - constructor.
  - constructor.
  - reflexivity.
  - cbn [MapPage.soil_series length Nat.add] in Rl, Rl'.
    unfold MapPage.parse in Rl, Rl'. rewrite length_map in Rl, Rl'.
    repeat split; assumption.
Qed.

Lemma no_data_flat_series_witness :
  MapPage.aw
    (MapPage.balance (fun x => x) (fun _ _ => 1) (fun _ => 1%Z) 0 "maize"
       (MapPage.parse Scenario.blank ["20250101"; "20250102"]))
  == 75.
Proof.
  assert (H : Forall
                (fun k =>
                   default ∅ (MapPage.PRECTOT Scenario.blank) !! k = None /\
                   (default ∅ (MapPage.T2M_MAX Scenario.blank) !! k = None \/
                    default ∅ (MapPage.T2M_MIN Scenario.blank) !! k = None))
                ["20250101"; "20250102"]).
  { repeat constructor. }
  exact (proj1 (no_data_flat_series (fun x => x) (fun _ _ => 1)
                  (fun _ => 1%Z) 0 "maize" Scenario.blank
                  ["20250101"; "20250102"] H)).
Defined.

(** ** Evapotranspiration and crop coefficients *)

(** X15: [hargreavesETo] passes a radiation that is NaN on, whatever the
    temperatures; for a radiation that is a number it takes the square root
    of a temperature spread that is never negative, so only the values of
    the square root from 0 on matter; with a maximum not above the minimum
    the spread is 0 and, the root of 0 being 0, so is ETo; and with a root
    and a radiation that are not negative, ETo is not negative as long as
    the mean temperature is at least -17.8. *)
Theorem hargreaves_spread_and_sign (sqrt sqrt' : Q -> Q) (tmin tmax : Q)
    (Hs : forall x, 0 <= x -> 0 <= sqrt x) (H0 : sqrt 0 == 0)
    (Hsame : forall x, 0 <= x -> sqrt' x == sqrt x) :
  Radiation.hargreavesETo sqrt tmin tmax None = None /\
  forall Ra : Q,
  exists e e' : Q,
    Radiation.hargreavesETo sqrt tmin tmax (Some Ra) = Some e /\
    Radiation.hargreavesETo sqrt' tmin tmax (Some Ra) = Some e' /\
    e' == e /\
    (tmax <= tmin -> e == 0) /\
    (0 <= Ra -> -17.8 <= (tmin + tmax) / 2 -> 0 <= e).
Proof.
  split; [ reflexivity | ]. intros Ra.
  unfold Radiation.hargreavesETo. cbv zeta. cbn [JSNum.mul JSNum.lift2].
  do 2 eexists. split; [ reflexivity | ]. split; [ reflexivity | ].
  assert (Hd : 0 <= JS.Math_max 0 (tmax - tmin)).
  { unfold JS.Math_max. case_cmp; lra. }
  split; [ now rewrite (Hsame _ Hd) | ].
  split.
  - intros Hle.
    assert (E : JS.Math_max 0 (tmax - tmin) = 0).
    { unfold JS.Math_max. case_cmp; [ exfalso; lra | reflexivity ]. }
    rewrite E, H0. ring.
  - intros HRa Hmean. specialize (Hs _ Hd).
    repeat apply Qmult_le_0_compat; try assumption; try discriminate.
    lra.
Qed.

Lemma hargreaves_spread_and_sign_witness :
  exists e : Q,
    Radiation.hargreavesETo (fun x => x) 20 20 (Some 30) = Some e /\ e == 0.
Proof.
  assert (Hs : forall x : Q, 0 <= x -> 0 <= (fun x => x) x)
    by (intros x H; exact H).
  assert (H0 : (fun x : Q => x) 0 == 0) by reflexivity.
  assert (Hsame : forall x : Q, 0 <= x -> (fun x => x) x == (fun x => x) x)
    by (intros x _; reflexivity).
  assert (Hle : 20 <= 20) by discriminate.
  destruct (proj2 (hargreaves_spread_and_sign (fun x => x) (fun x => x)
                     20 20 Hs H0 Hsame) 30)
    as (e & e' & E & _ & _ & Z & _).
  exists e. split; [ exact E | exact (Z Hle) ].
Defined.

(** X22: where the radiation is a number on every day with both temperatures
    (between the polar circles, every day), the loop never meets NaN: it is
    the loop over numbers alone, its balance stays within [0, fc_mm], and
    it emits one soil-moisture value a day, each within [0, fc_mm]. *)
Theorem numeric_radiation_keeps_capacity
    (PI : Q) (sin cos tan acos sqrt : Q -> Q) (doyOfKey : string -> Z)
    (lat : Q) (crop : Radiation.Crop) (rows : list MapPage.Row)
    (Hnum :
       Forall
         (fun r =>
            is_Some (MapPage.tmx r) -> is_Some (MapPage.tmn r) ->
            -1 <= Radiation.sunset PI sin tan lat (doyOfKey (MapPage.key r))
            <= 1)
         rows) :
  let b := Radiation.balance PI sin cos tan acos sqrt doyOfKey lat crop rows in
  b = Radiation.ofNumbers
        (MapPage.balance sqrt (Radiation.numericRa PI sin cos tan acos)
           doyOfKey lat (Radiation.value crop) rows) /\
  JSNum.within 0 MapPage.fc_mm (Radiation.aw b) /\
  Forall (JSNum.within 0 MapPage.fc_mm) (Radiation.soil_series b) /\
  length (Radiation.soil_series b) = length rows.
Proof.
  intros b.
  assert (E : b = Radiation.ofNumbers
                    (MapPage.balance sqrt
                       (Radiation.numericRa PI sin cos tan acos)
                       doyOfKey lat (Radiation.value crop) rows)).
  { subst b. unfold Radiation.balance, MapPage.balance, Radiation.kc.
    rewrite <- (balance_ofNumbers _ _ _ _ _ _ _ _ _ _ Hnum). reflexivity. }
  split; [ exact E | ]. rewrite E. unfold MapPage.balance.
  destruct (balance_fold sqrt (Radiation.numericRa PI sin cos tan acos)
              doyOfKey lat (MapPage.kc (Radiation.value crop)) rows
              {| MapPage.aw := MapPage.fc_mm * 0.5;
                 MapPage.soil_series := [];
                 MapPage.eto_series := [] |})
    as (Ha & Hf & Hl).
  - cbn. split; discriminate.
  - constructor.
  - cbn [Radiation.ofNumbers Radiation.aw Radiation.soil_series].
    split; [ eexists; split; [ reflexivity | exact Ha ] | ].
    split.
    + apply Forall_fmap. eapply Forall_impl; [ exact Hf | ].
      intros v Hv. exists v. split; [ reflexivity | exact Hv ].
    + rewrite length_map. exact Hl.
Qed.

(** At latitude 12 on the same day the radiation is a number. *)
Lemma numeric_radiation_keeps_capacity_witness :
  length
    (Radiation.soil_series
       (Radiation.balance Polar.PI Polar.sin Polar.cos Polar.tan Polar.acos
          Polar.sqrt Polar.doyOfKey 12 Radiation.maize [Polar.midwinter]))
  = 1%nat.
Proof.
  assert (Hnum :
            Forall
              (fun r =>
                 is_Some (MapPage.tmx r) -> is_Some (MapPage.tmn r) ->
                 -1 <= Radiation.sunset Polar.PI Polar.sin Polar.tan 12
                         (Polar.doyOfKey (MapPage.key r)) <= 1)
              [Polar.midwinter]).
  { constructor; [ | constructor ]. intros _ _.
    split; vm_compute; discriminate. }
  destruct (numeric_radiation_keeps_capacity Polar.PI Polar.sin Polar.cos
              Polar.tan Polar.acos Polar.sqrt Polar.doyOfKey 12
              Radiation.maize [Polar.midwinter] Hnum)
    as (_ & _ & _ & E).
  exact E.
Defined.

(** ** From the map to the game *)

(** X17: after a click on the map whose requests fail, the Start button is
    enabled (a location is set and loading is over) but no weather data is
    held, any loaded before being dropped; starting the simulation then
    stores no data and the simulation screen goes back to the map.  Before
    any click the Start button is disabled. *)
Theorem failed_load_bounces (sqrt : Q -> Q) (computeRa : Q -> Z -> Q)
    (doyOfKey : string -> Z) (lat lng : Q) (place : option string)
    (st : Handoff.MapState) :
  let st' :=
    Handoff.clickMap sqrt computeRa doyOfKey lat lng (Handoff.Failed place)
      st in
  Handoff.startDisabled st' = false /\
  Handoff.data st' = None /\
  Handoff.enter (Handoff.handleStartGame st') = Handoff.Redirected /\
  Handoff.startDisabled Handoff.initial = true.
Proof. cbv zeta. repeat split. Qed.



(** ** The rainfall levels of farm-sim.js *)

Lemma rainfallToLevel_not_none mm : FarmSim.rainfallToLevel mm <> none.
Proof.
  destruct (rainfallToLevel_cases mm) as [(_ & ->) | [(_ & _ & ->) | (_ & ->)]];
    discriminate.
Qed.

Lemma currentRainLevel_some week levels :
  (1 <= week)%Z -> levels <> [] ->
  exists l, SimState.currentRainLevel week levels = Some l /\ l ∈ levels.
Proof.
  intros Hw Hl. unfold SimState.currentRainLevel.
  destruct levels as [ | l0 levels]; [ congruence | ].
  set (ls := l0 :: levels) in *.
  assert (Hlen : (0 < Z.of_nat (length ls))%Z) by (subst ls; cbn; lia).
  assert (Hr : (0 <= Z.rem (week - 1) (Z.of_nat (length ls))
                < Z.of_nat (length ls))%Z).
  { rewrite Z.rem_mod_nonneg by lia. apply Z.mod_pos_bound. lia. }
  unfold JS.index.
  replace (Z.rem (week - 1) (Z.of_nat (length ls)) <? 0)%Z with false
    by (symmetry; apply Z.ltb_ge; lia).
  destruct (lookup_lt_is_Some_2 ls
              (Z.to_nat (Z.rem (week - 1) (Z.of_nat (length ls)))))
    as [l El]; [ lia | ].
  exists l. split; [ exact El | ].
  eapply list_elem_of_lookup_2. exact El.
Qed.

(** X19: with at least one day and from week 1 on, whatever answers
    [fetchNasaPower] has received, [currentRainLevel] finds a level (the
    remainder keeps the index within the list) and that level is never
    "none"; the list of levels is never empty and never longer than the
    number of days.  Without an answer, or after empty ones only, the
    level is the mock "medium". *)
Theorem current_rain_level_defined (days : nat) (week : Z)
    (answers : list (list Q))
    (Hd : (1 <= days)%nat) (Hw : (1 <= week)%Z) :
  let levels :=
    fold_left (fun l vals => SimState.fetched days vals l) answers
      (SimState.mock days) in
  levels <> [] /\
  (length levels <= days)%nat /\
  (exists l, SimState.currentRainLevel week levels = Some l /\ l <> none) /\
  (Forall (fun vals => vals = []) answers ->
   SimState.currentRainLevel week levels = Some medium).
Proof.
  intros levels.
  assert (G : forall answers l0,
             l0 <> [] -> (length l0 <= days)%nat ->
             Forall (fun l => l <> none) l0 ->
             let l1 :=
               fold_left (fun l vals => SimState.fetched days vals l)
                 answers l0 in
             l1 <> [] /\ (length l1 <= days)%nat /\
             Forall (fun l => l <> none) l1 /\
             (Forall (fun vals => vals = []) answers -> l1 = l0)).
  { clear answers levels.
    induction answers as [ | vals answers IH]; intros l0 Hn Hlen Hf.
    - cbn. auto.
    - cbn [fold_left]. cbv zeta.
      destruct vals as [ | v vals].
      + cbn [SimState.fetched].
        destruct (IH l0 Hn Hlen Hf) as (A & B & C & D).
        split; [ exact A | ]. split; [ exact B | ]. split; [ exact C | ].
        intros Hall. apply Forall_cons in Hall. apply D, Hall.
      + set (l1 := SimState.fetched days (v :: vals) l0).
        destruct (IH l1) as (A & B & C & _).
        * subst l1. cbn [SimState.fetched map].
          destruct days; [ lia | discriminate ].
        * subst l1. cbn [SimState.fetched]. rewrite length_take. lia.
        * subst l1. cbn [SimState.fetched].
          apply Forall_take, Forall_map, Forall_forall.
          intros mm _. apply rainfallToLevel_not_none.
        * split; [ exact A | ]. split; [ exact B | ]. split; [ exact C | ].
          intros Hall. apply Forall_cons in Hall.
          destruct Hall as [Hv _]. discriminate Hv. }
  destruct (G answers (SimState.mock days)) as (A & B & C & D).
  - unfold SimState.mock. destruct days; [ lia | discriminate ].
  - unfold SimState.mock. rewrite repeat_length. lia.
  - unfold SimState.mock. apply Forall_forall. intros l Hl.
    apply list_elem_of_In, repeat_spec in Hl. subst l. discriminate.
  - fold levels in A, B, C, D.
    split; [ exact A | ]. split; [ exact B | ].
    split.
    + destruct (currentRainLevel_some week levels Hw A) as (l & El & Hin).
      exists l. split; [ exact El | ].
      eapply Forall_forall in C; eassumption.
    + intros Hall. rewrite (D Hall).
      destruct (currentRainLevel_some week (SimState.mock days) Hw)
        as (l & El & Hin).
      * unfold SimState.mock. destruct days; [ lia | discriminate ].
      * rewrite El. f_equal.
        unfold SimState.mock in Hin.
        apply list_elem_of_In, repeat_spec in Hin. exact Hin.
Qed.

Lemma current_rain_level_defined_witness :
  SimState.currentRainLevel 1
    (fold_left (fun l vals => SimState.fetched 10 vals l) [[]]
       (SimState.mock 10))
  = Some medium.
Proof.
  assert (Hd : (1 <= 10)%nat) by lia.
  assert (Hw : (1 <= 1)%Z) by lia.
  assert (Hall : Forall (fun vals : list Q => vals = []) [[]])
    by (constructor; [ reflexivity | constructor ]).
  destruct (current_rain_level_defined 10 1 [[]] Hd Hw) as (_ & _ & _ & E).
  exact (E Hall).
Defined.

(** ** The date label and the clamp of farm-sim.js *)

(** X20: for every day of a month, 1 to 31, the suffix of the date label
    is the English one: "st" for 1, 21 and 31, "nd" for 2 and 22, "rd" for 3
    and 23, and "th" for every other day, 11, 12 and 13 included. *)
Theorem ordinal_suffix (day : Z) (H : (1 <= day <= 31)%Z) :
  (DateLabel.suffix day = "st" <-> day = 1 \/ day = 21 \/ day = 31)%Z /\
  (DateLabel.suffix day = "nd" <-> day = 2 \/ day = 22)%Z /\
  (DateLabel.suffix day = "rd" <-> day = 3 \/ day = 23)%Z /\
  (DateLabel.suffix day = "th" <->
   (4 <= day <= 20 \/ 24 <= day <= 30)%Z).
Proof.
  assert (Hd : exists n : nat, (n < 31)%nat /\ day = Z.of_nat (S n)).
  { exists (Z.to_nat (day - 1)). lia. }
  destruct Hd as (n & Hn & ->).
  do 31 (destruct n as [ | n];
         [ set (sfx := DateLabel.suffix _); vm_compute in sfx; subst sfx;
           repeat split; intros; try discriminate; try reflexivity; lia
         | ]).
  lia.
Qed.

Lemma ordinal_suffix_witness : DateLabel.suffix 22 = "nd".
Proof.
  assert (H : (1 <= 22 <= 31)%Z) by lia.
  destruct (ordinal_suffix 22 H) as (_ & [_ E] & _).
  apply E. right. reflexivity.
Defined.

(** X21: the clamp of farm-sim.js keeps a value within bounds that are in
    order, is monotone and changes nothing when applied again; when the
    bounds are out of order its result is the lower bound, whatever the
    value. *)
Theorem clamp_laws (min max v v' : Q) :
  (min <= max -> min <= FarmSim.clamp min max v <= max) /\
  (max < min -> FarmSim.clamp min max v == min) /\
  (v <= v' -> FarmSim.clamp min max v <= FarmSim.clamp min max v') /\
  FarmSim.clamp min max (FarmSim.clamp min max v) == FarmSim.clamp min max v.
Proof.
  unfold FarmSim.clamp, JS.Math_max, JS.Math_min.
  repeat split; intros; case_cmp; lra.
Qed.
